(** * Python-Drone-Simulation: command loops and scripted flight

    A shallow embedding of [voice_control.py] and [offboard_control.py].

    Conventions of the embedding.
    - Python [float] and [int] values are exact rationals [Q]; rounding,
      infinities and NaN are outside the model.  Decimal literals are written
      as in the source ([1.5], [0.5], [3.0]).
    - Python [str] is [string]; the text operations below agree with Python on
      ASCII text.
    - A value decoded from JSON, and a Python dict literal, is a [json] value.
    - Calls on the vehicle, sleeps and console lines are recorded as [event]s,
      a console line by the fixed part of its text.  The vehicle may refuse
      any call by raising an exception; which calls it refuses is a parameter
      ([vehicle]) that sees the events issued so far.
    - Exceptions are those deriving from [Exception]; interrupts and
      cancellation are outside the model.
    - Library routines the program calls but does not define ([json.loads],
      [float], [int]) are parameters of the embedding ([Runtime]); reference
      models of them are given for evaluating concrete runs. *)

From Stdlib Require Import List String Ascii Bool Arith ZArith QArith Qabs Lia Lqa.
Import ListNotations.

Set Implicit Arguments.

(** ** Python text operations *)

Module PyStr.
Local Open Scope nat_scope.

(** [c.isspace()] on ASCII. *)
Definition isspace (c : ascii) : bool :=
  let n := nat_of_ascii c in
  ((9 <=? n) && (n <=? 13)) || ((28 <=? n) && (n <=? 32)).

(** [c.lower()] on ASCII. *)
Definition lower_char (c : ascii) : ascii :=
  let n := nat_of_ascii c in
  if (65 <=? n) && (n <=? 90) then ascii_of_nat (n + 32) else c.

(** [s.lower()] *)
Fixpoint lower (s : string) : string :=
  match s with
  | EmptyString => EmptyString
  | String c s' => String (lower_char c) (lower s')
  end.

(** [s.startswith(p)] *)
Fixpoint startswith (p s : string) : bool :=
  match p, s with
  | EmptyString, _ => true
  | String _ _, EmptyString => false
  | String a p', String b s' => Ascii.eqb a b && startswith p' s'
  end.

(** [s.endswith(p)] *)
Fixpoint endswith (p s : string) : bool :=
  String.eqb p s ||
  match s with
  | EmptyString => false
  | String _ s' => endswith p s'
  end.

(** [sub in s] *)
Fixpoint contains (sub s : string) : bool :=
  startswith sub s ||
  match s with
  | EmptyString => false
  | String _ s' => contains sub s'
  end.

(** [any(word in s for word in words)] *)
Definition any_in (words : list string) (s : string) : bool :=
  existsb (fun word => contains word s) words.

(** [s.lstrip()], [s.rstrip()], [s.strip()] *)
Fixpoint lstrip (s : string) : string :=
  match s with
  | EmptyString => EmptyString
  | String c s' => if isspace c then lstrip s' else s
  end.

Fixpoint rstrip (s : string) : string :=
  match s with
  | EmptyString => EmptyString
  | String c s' =>
      match rstrip s' with
      | EmptyString => if isspace c then EmptyString else String c EmptyString
      | r => String c r
      end
  end.

Definition strip (s : string) : string := rstrip (lstrip s).

(** [s[n:]] *)
Fixpoint drop (n : nat) (s : string) : string :=
  match n, s with
  | O, _ => s
  | S _, EmptyString => EmptyString
  | S n', String _ s' => drop n' s'
  end.

(** [s[:-n]] for [n > 0] *)
Definition drop_last (n : nat) (s : string) : string :=
  substring 0 (String.length s - n) s.

(** [s.split()]: maximal runs of non-space characters. *)
Fixpoint split_ws_from (s word : string) : list string :=
  match s with
  | EmptyString => match word with EmptyString => [] | _ => [word] end
  | String c s' =>
      if isspace c
      then match word with
           | EmptyString => split_ws_from s' EmptyString
           | _ => word :: split_ws_from s' EmptyString
           end
      else split_ws_from s' (word ++ String c EmptyString)
  end.

Definition split_ws (s : string) : list string := split_ws_from s EmptyString.

(** [s.split(sep)] for a non-empty [sep]: the text is cut at the leftmost
    occurrences of [sep], scanning left to right.  [skip] counts the
    characters of a matched separator still to pass over. *)
Fixpoint split_sep_from (sep s : string) (skip : nat) (piece : string)
  : list string :=
  match s with
  | EmptyString => [piece]
  | String c s' =>
      match skip with
      | S k => split_sep_from sep s' k piece
      | O =>
          if startswith sep s
          then piece :: split_sep_from sep s' (String.length sep - 1) EmptyString
          else split_sep_from sep s' 0 (piece ++ String c EmptyString)
      end
  end.

Definition split_sep (sep s : string) : list string :=
  split_sep_from sep s 0 EmptyString.

(** [s.split(sep)[-1]] *)
Definition split_last (sep s : string) : string :=
  last (split_sep sep s) EmptyString.

End PyStr.

(** ** Python numbers *)

Module PyNum.
Local Open Scope Q_scope.

(** [max(a, b)]: [b] replaces [a] only when [b > a]. *)
Definition py_max (a b : Q) : Q := if Qle_bool b a then a else b.

(** [min(a, b)]: [b] replaces [a] only when [b < a]. *)
Definition py_min (a b : Q) : Q := if Qle_bool a b then a else b.

(** [abs(a)] *)
Definition py_abs (a : Q) : Q := Qabs a.

Definition digit_of (c : ascii) : option Z :=
  let n := nat_of_ascii c in
  if (48 <=? n)%nat && (n <=? 57)%nat then Some (Z.of_nat (n - 48)) else None.

(** Reads a run of decimal digits: the value read so far, the number of
    digits read, and the rest of the text. *)
Fixpoint read_digits (s : string) (acc : Z) (count : nat) : Z * nat * string :=
  match s with
  | EmptyString => (acc, count, s)
  | String c s' =>
      match digit_of c with
      | Some d => read_digits s' (10 * acc + d)%Z (S count)
      | None => (acc, count, s)
      end
  end.

Definition read_sign (s : string) : bool * string :=
  match s with
  | String "-"%char s' => (true, s')
  | String "+"%char s' => (false, s')
  | _ => (false, s)
  end.

(** Reference model of [int(text)] for plain decimal text: optional
    surrounding white space, optional sign, one or more digits.  [None] is
    [ValueError]. *)
Definition int_model (text : string) : option Z :=
  let '(neg, s) := read_sign (PyStr.strip text) in
  match read_digits s 0 0 with
  | (n, S _, EmptyString) => Some (if neg then (- n)%Z else n)
  | _ => None
  end.

(** Reference model of [float(text)] for plain decimal text: optional
    surrounding white space, optional sign, digits with an optional fraction
    part.  Exponents, [inf] and [nan] are outside the model.  [None] is
    [ValueError]. *)
Definition float_model (text : string) : option Q :=
  let '(neg, s) := read_sign (PyStr.strip text) in
  let '(ip, ni, s1) := read_digits s 0 0 in
  let '(num, den, nf, rest) :=
    match s1 with
    | String "."%char s2 =>
        let '(fp, nf, s3) := read_digits s2 ip 0 in (fp, (10 ^ Z.of_nat nf)%Z, nf, s3)
    | _ => (ip, 1%Z, O, s1)
    end in
  match rest, (ni + nf)%nat with
  | EmptyString, S _ =>
      Some (if neg then - (num # Z.to_pos den) else (num # Z.to_pos den))
  | _, _ => None
  end.

End PyNum.

(** ** JSON values and Python dict access *)

Module Json.
Local Open Scope string_scope.

#[warnings="-register-all"]
Inductive json : Type :=
| JNull
| JBool (b : bool)
| JNum (q : Q)
| JStr (s : string)
| JArr (items : list json)
| JObj (members : list (string * json)).

(** Lookup in a dict built from [members] in order: a later binding of a key
    replaces an earlier one. *)
Fixpoint dict_lookup (key : string) (members : list (string * json))
  : option json :=
  match members with
  | [] => None
  | (k, v) :: rest =>
      match dict_lookup key rest with
      | Some v' => Some v'
      | None => if String.eqb key k then Some v else None
      end
  end.

(** [d.get(key, default)] on a dict *)
Definition dict_get (key : string) (default : json)
  (members : list (string * json)) : json :=
  match dict_lookup key members with
  | Some v => v
  | None => default
  end.

(** Python truth value, as tested by [not x]. *)
Definition truthy (j : json) : bool :=
  match j with
  | JNull => false
  | JBool b => b
  | JNum q => negb (Qeq_bool q 0)
  | JStr s => negb (String.eqb s "")
  | JArr items => match items with [] => false | _ => true end
  | JObj members => match members with [] => false | _ => true end
  end.

(** The number a value stands for in arithmetic; [bool] is a subclass of
    [int].  [None] where arithmetic with a float raises [TypeError]. *)
Definition as_number (j : json) : option Q :=
  match j with
  | JNum q => Some q
  | JBool b => Some (if b then 1%Q else 0%Q)
  | _ => None
  end.

(** [j == s] for a string literal [s] *)
Definition is_str (j : json) (s : string) : bool :=
  match j with
  | JStr t => String.eqb t s
  | _ => false
  end.

(** [j in [s1, s2, ...]] for string literals *)
Definition is_one_of (j : json) (names : list string) : bool :=
  existsb (is_str j) names.

(** *** Reference model of [json.loads]

    Standard JSON text over ASCII.  Outside the model, and rejected here:
    [\u] escapes and the non-standard constants [NaN] and [Infinity]. *)

Definition dquote : ascii := ascii_of_nat 34.
Definition backslash : ascii := ascii_of_nat 92.

Definition is_json_ws (c : ascii) : bool :=
  let n := nat_of_ascii c in
  (n =? 32)%nat || (n =? 9)%nat || (n =? 10)%nat || (n =? 13)%nat.

Fixpoint skip_ws (s : string) : string :=
  match s with
  | EmptyString => EmptyString
  | String c s' => if is_json_ws c then skip_ws s' else s
  end.

Definition unescape (c : ascii) : option ascii :=
  if Ascii.eqb c dquote then Some dquote
  else if Ascii.eqb c backslash then Some backslash
  else match c with
       | "/"%char => Some "/"%char
       | "b"%char => Some (ascii_of_nat 8)
       | "f"%char => Some (ascii_of_nat 12)
       | "n"%char => Some (ascii_of_nat 10)
       | "r"%char => Some (ascii_of_nat 13)
       | "t"%char => Some (ascii_of_nat 9)
       | _ => None
       end.

(** The text of a string literal after its opening quote. *)
Fixpoint read_string (s acc : string) : option (string * string) :=
  match s with
  | EmptyString => None
  | String c s' =>
      if Ascii.eqb c dquote then Some (acc, s')
      else if Ascii.eqb c backslash then
        match s' with
        | EmptyString => None
        | String e s'' =>
            match unescape e with
            | Some ch => read_string s'' (acc ++ String ch EmptyString)
            | None => None
            end
        end
      else if (nat_of_ascii c <? 32)%nat then None
      else read_string s' (acc ++ String c EmptyString)
  end.

Definition scale (mantissa exponent : Z) : Q :=
  if (0 <=? exponent)%Z
  then inject_Z (mantissa * 10 ^ exponent)
  else mantissa # Z.to_pos (10 ^ (- exponent)).

Definition read_number (s : string) : option (Q * string) :=
  let '(neg, s0) :=
    match s with
    | String "-"%char r => (true, r)
    | _ => (false, s)
    end in
  let '(ip, ni, s1) := PyNum.read_digits s0 0 0 in
  let leading_zero :=
    match s0 with
    | String "0"%char _ => (1 <? ni)%nat
    | _ => false
    end in
  if (ni =? 0)%nat || leading_zero then None else
  let fraction :=
    match s1 with
    | String "."%char s2 =>
        let '(fp, nf, s3) := PyNum.read_digits s2 ip 0 in
        if (nf =? 0)%nat then None else Some (fp, nf, s3)
    | _ => Some (ip, O, s1)
    end in
  match fraction with
  | None => None
  | Some (m, nf, s3) =>
      let exponent :=
        match s3 with
        | String c s4 =>
            if Ascii.eqb c "e" || Ascii.eqb c "E" then
              let '(eneg, s5) := PyNum.read_sign s4 in
              let '(ev, ne, s6) := PyNum.read_digits s5 0 0 in
              if (ne =? 0)%nat then None
              else Some (if eneg then (- ev)%Z else ev, s6)
            else Some (0%Z, s3)
        | EmptyString => Some (0%Z, s3)
        end in
      match exponent with
      | None => None
      | Some (e, rest) =>
          let q := scale m (e - Z.of_nat nf) in
          Some (if neg then (- q)%Q else q, rest)
      end
  end.

Fixpoint parse_value (fuel : nat) (s : string) : option (json * string) :=
  match fuel with
  | O => None
  | S fuel' =>
      match skip_ws s with
      | EmptyString => None
      | String c r =>
          if Ascii.eqb c dquote then
            match read_string r EmptyString with
            | Some (t, r') => Some (JStr t, r')
            | None => None
            end
          else match c with
          | "{"%char =>
              match skip_ws r with
              | String "}"%char r' => Some (JObj [], r')
              | r' =>
                  match parse_members fuel' r' with
                  | Some (ms, r'') => Some (JObj ms, r'')
                  | None => None
                  end
              end
          | "["%char =>
              match skip_ws r with
              | String "]"%char r' => Some (JArr [], r')
              | r' =>
                  match parse_items fuel' r' with
                  | Some (js, r'') => Some (JArr js, r'')
                  | None => None
                  end
              end
          | _ =>
              let here := String c r in
              if PyStr.startswith "true" here then Some (JBool true, PyStr.drop 4 here)
              else if PyStr.startswith "false" here then Some (JBool false, PyStr.drop 5 here)
              else if PyStr.startswith "null" here then Some (JNull, PyStr.drop 4 here)
              else match read_number here with
                   | Some (q, r') => Some (JNum q, r')
                   | None => None
                   end
          end
      end
  end

with parse_members (fuel : nat) (s : string)
  : option (list (string * json) * string) :=
  match fuel with
  | O => None
  | S fuel' =>
      match skip_ws s with
      | String c r =>
          if negb (Ascii.eqb c dquote) then None else
          match read_string r EmptyString with
          | None => None
          | Some (key, r1) =>
              match skip_ws r1 with
              | String ":"%char r2 =>
                  match parse_value fuel' r2 with
                  | None => None
                  | Some (v, r3) =>
                      match skip_ws r3 with
                      | String ","%char r4 =>
                          match parse_members fuel' r4 with
                          | Some (ms, r5) => Some ((key, v) :: ms, r5)
                          | None => None
                          end
                      | String "}"%char r4 => Some ([(key, v)], r4)
                      | _ => None
                      end
                  end
              | _ => None
              end
          end
      | EmptyString => None
      end
  end

with parse_items (fuel : nat) (s : string) : option (list json * string) :=
  match fuel with
  | O => None
  | S fuel' =>
      match parse_value fuel' s with
      | None => None
      | Some (v, r1) =>
          match skip_ws r1 with
          | String ","%char r2 =>
              match parse_items fuel' r2 with
              | Some (js, r3) => Some (v :: js, r3)
              | None => None
              end
          | String "]"%char r2 => Some ([v], r2)
          | _ => None
          end
      end
  end.

(** [json.loads(text)]; [None] is [json.JSONDecodeError], raised also when
    anything but white space follows the value. *)
Definition loads_model (text : string) : option json :=
  match parse_value (S (String.length text)) text with
  | Some (v, rest) =>
      match skip_ws rest with
      | EmptyString => Some v
      | _ => None
      end
  | None => None
  end.

(** [s] between double quotes, for writing JSON text. *)
Definition quoted (s : string) : string :=
  String dquote (s ++ String dquote EmptyString).

End Json.

(** ** Effects: vehicle calls, sleeps, console lines, exceptions *)

Module Effects.
Local Open Scope Q_scope.

(** Python exception classes the program can meet; all derive from
    [Exception]. *)
Inductive exn : Type :=
| JSONDecodeError
| TypeError
| ValueError
| KeyError
| AttributeError
| UnboundLocalError
| OffboardError
| WaitTimeoutError
| UnknownValueError
| OtherError (name : string).

(** [mavsdk.offboard.VelocityNedYaw]: metres per second north, east and
    down, and the yaw in degrees. *)
Record VelocityNedYaw : Type := velocity_ned_yaw {
  north_m_s : Q;
  east_m_s : Q;
  down_m_s : Q;
  yaw_deg : Q
}.

(** [mavsdk.offboard.PositionNedYaw] *)
Record PositionNedYaw : Type := position_ned_yaw {
  north_m : Q;
  east_m : Q;
  down_m : Q;
  position_yaw_deg : Q
}.

Inductive event : Type :=
| system_connect (system_address : string)
| action_arm
| action_disarm
| action_takeoff
| action_land
| action_return_to_launch
| offboard_set_velocity_ned (v : VelocityNedYaw)
| offboard_set_position_ned (p : PositionNedYaw)
| offboard_start
| offboard_stop
| telemetry_first (stream : string)
| asyncio_sleep (seconds : Q)
| print (line : string).

(** What the program takes from outside.  [vehicle history call] is [None]
    when the vehicle accepts [call] after the events of [history], and
    [Some e] when the call raises [e]. *)
Record Runtime : Type := {
  vehicle : list event -> event -> option exn;
  json_loads : string -> option Json.json;
  py_float : string -> option Q;
  py_int : string -> option Z
}.

(** A computation sees the events issued before it and the current value of
    the local variable [yaw_heading]; it issues events, may change
    [yaw_heading], and returns a value or raises. *)
Record outcome (A : Type) : Type := {
  issued : list event;
  heading : Q;
  result : exn + A
}.

Definition M (A : Type) : Type := list event -> Q -> outcome A.

Definition ret {A} (a : A) : M A :=
  fun _ yaw => {| issued := []; heading := yaw; result := inr a |}.

Definition raise {A} (e : exn) : M A :=
  fun _ yaw => {| issued := []; heading := yaw; result := inl e |}.

Definition bind {A B} (m : M A) (k : A -> M B) : M B :=
  fun history yaw =>
    let '(Build_outcome events yaw' r) := m history yaw in
    match r with
    | inl e => {| issued := events; heading := yaw'; result := inl e |}
    | inr a =>
        let '(Build_outcome events' yaw'' r') := k a (history ++ events) yaw' in
        {| issued := events ++ events'; heading := yaw''; result := r' |}
    end.

(** [try: m except ...: handler] *)
Definition try_except {A} (m : M A) (handler : exn -> M A) : M A :=
  fun history yaw =>
    let '(Build_outcome events yaw' r) := m history yaw in
    match r with
    | inl e =>
        let '(Build_outcome events' yaw'' r') :=
          handler e (history ++ events) yaw' in
        {| issued := events ++ events'; heading := yaw''; result := r' |}
    | inr a => {| issued := events; heading := yaw'; result := inr a |}
    end.

Definition get_yaw : M Q :=
  fun _ yaw => {| issued := []; heading := yaw; result := inr yaw |}.

Definition set_yaw (yaw : Q) : M unit :=
  fun _ _ => {| issued := []; heading := yaw; result := inr tt |}.

(** An effect that cannot be refused: a sleep or a console line. *)
Definition emit (e : event) : M unit :=
  fun _ yaw => {| issued := [e]; heading := yaw; result := inr tt |}.

(** [await drone.<call>]: issued, then accepted or refused by the vehicle. *)
Definition await (E : Runtime) (e : event) : M unit :=
  fun history yaw =>
    {| issued := [e];
       heading := yaw;
       result := match vehicle E history e with
                 | Some x => inl x
                 | None => inr tt
                 end |}.

(** [print(line)] and [await asyncio.sleep(seconds)] *)
Definition say (line : string) : M unit := emit (print line).
Definition sleep (seconds : Q) : M unit := emit (asyncio_sleep seconds).

(** [None] raises [e]. *)
Definition or_raise {A} (e : exn) (o : option A) : M A :=
  match o with
  | Some a => ret a
  | None => raise e
  end.

Declare Scope py_scope.
Delimit Scope py_scope with py.
Notation "x <- m ;; k" := (bind m (fun x => k))
  (at level 61, m at next level, right associativity) : py_scope.
Notation "m ;; k" := (bind m (fun _ => k))
  (at level 61, right associativity) : py_scope.

(** How one pass through a [while True] body ends. *)
Inductive ctl : Type := Continue | Break.

(** How the modelled part of a session ends: the function returned, or the
    loop is waiting for input beyond the inputs given. *)
Inductive session : Type := Returned | AwaitingInput.

(** [while True: body(next input)] over the inputs given. *)
Fixpoint while_true {I} (body : I -> M ctl) (inputs : list I) : M session :=
  match inputs with
  | [] => ret AwaitingInput
  | i :: rest =>
      bind (body i) (fun c =>
        match c with
        | Break => ret Returned
        | Continue => while_true body rest
        end)
  end.

(** The vehicle calls and sleeps among the events, console lines left out. *)
Definition actions (events : list event) : list event :=
  filter (fun e => match e with print _ => false | _ => true end) events.

(** Runs a computation from the start of a program. *)
Definition run_from_start {A} (m : M A) : outcome A := m [] 0.

End Effects.

(** ** voice_control.py *)

Module VoiceControl.
Import PyStr PyNum Json Effects.
Local Open Scope string_scope.
Local Open Scope Q_scope.
Local Open Scope py_scope.

(** *** class DroneCommandProcessor *)

(** What [self.client.models.generate_content(...)] does for one request:
    it raises, or returns a response whose [.text] is a string or [None]. *)
Inductive llm_reply : Type :=
| LlmRaises (e : exn)
| LlmResponse (text : option string).

(** [_fallback_processing]: keyword matching on the lowered text. *)
Definition _fallback_processing (speech_text : string) : json :=
  let speech := lower speech_text in
  let movement action :=
    JObj [("is_drone_command", JBool true); ("action", JStr action);
          ("parameters", JObj [("distance", JNum 2.0)])] in
  let rotation action :=
    JObj [("is_drone_command", JBool true); ("action", JStr action);
          ("parameters", JObj [("angle", JNum 90)])] in
  let bare action :=
    JObj [("is_drone_command", JBool true); ("action", JStr action);
          ("parameters", JObj [])] in
  if any_in ["forward"; "ahead"; "front"] speech then movement "forward"
  else if any_in ["back"; "backward"; "reverse"] speech then movement "backward"
  else if any_in ["left"] speech && negb (contains "turn" speech) then movement "left"
  else if any_in ["right"] speech && negb (contains "turn" speech) then movement "right"
  else if any_in ["up"; "rise"; "ascend"] speech then movement "up"
  else if any_in ["down"; "descend"; "lower"] speech then movement "down"
  else if contains "turn right" speech then rotation "turn_right"
  else if contains "turn left" speech then rotation "turn_left"
  else if any_in ["land"; "landing"] speech then bare "land"
  else if any_in ["takeoff"; "take off"; "launch"] speech then bare "takeoff"
  else if any_in ["home"; "return"; "rth"] speech then bare "return_home"
  else if any_in ["stop"; "halt"; "hover"] speech then bare "stop"
  else if any_in ["exit"; "quit"; "end"] speech then bare "exit"
  else JObj [("is_drone_command", JBool false);
             ("interpretation", JStr "Not a drone command")].

(** Lines 90-97 of [process_speech]: the response text with white space and
    markdown code block formatting removed. *)
Definition clean_response_text (text : string) : string :=
  let response_text := strip text in
  let response_text :=
    if startswith "```json" response_text then drop 7 response_text
    else response_text in
  let response_text :=
    if endswith "```" response_text then drop_last 3 response_text
    else response_text in
  strip response_text.

(** [process_speech].  In the first handler [response] is read again; it is
    unbound when the request itself raised. *)
Definition process_speech (E : Runtime) (reply : llm_reply)
  (speech_text : string) : M json :=
  try_except
    (match reply with
     | LlmRaises e => raise e
     | LlmResponse None => raise AttributeError
     | LlmResponse (Some text) =>
         or_raise JSONDecodeError (json_loads E (clean_response_text text))
     end)
    (fun e =>
       match e with
       | JSONDecodeError =>
           say "[!] Gemini returned invalid JSON";;
           match reply with
           | LlmRaises _ => raise UnboundLocalError
           | LlmResponse _ =>
               say "[!] Raw response";;
               ret (_fallback_processing speech_text)
           end
       | _ =>
           say "[!] Gemini API error";;
           ret (_fallback_processing speech_text)
       end).

(** *** Basic actions *)

Definition zero_velocity (yaw : Q) : VelocityNedYaw :=
  velocity_ned_yaw 0.0 0.0 0.0 yaw.

Definition debug_telemetry (E : Runtime) : M unit :=
  await E (telemetry_first "position");;
  say "[DEBUG] PX4 says: ALT";;
  await E (telemetry_first "in_air");;
  say "[DEBUG] PX4 in_air";;
  await E (telemetry_first "armed");;
  say "[DEBUG] PX4 armed".

(** [takeoff(drone, alt)]; [alt] is whatever the caller passes. *)
Definition takeoff (E : Runtime) (alt : json) : M unit :=
  say "Taking off using offboard control...";;
  await E (offboard_set_velocity_ned (velocity_ned_yaw 0.0 0.0 0.0 0.0));;
  started <- try_except (await E offboard_start;; ret true)
               (fun _ => say "[x] Could not start Offboard mode for takeoff";;
                         ret false);;
  if started : bool then
    let ascent_speed := - 1.0 in
    await E (offboard_set_velocity_ned (velocity_ned_yaw 0.0 0.0 ascent_speed 0.0));;
    a <- or_raise TypeError (as_number alt);;
    sleep (a / py_abs ascent_speed);;
    await E (offboard_set_velocity_ned (velocity_ned_yaw 0.0 0.0 0.0 0.0))
  else ret tt.

Definition land (E : Runtime) : M unit :=
  say "Landing...";;
  await E action_land;;
  sleep 5.

Definition return_to_launch (E : Runtime) : M unit :=
  say "Returning to launch...";;
  await E action_return_to_launch;;
  sleep 5.

(** *** Speech input *)

(** One pass of a voice loop: [recognizer.listen] raises, or it returns audio
    on which [recognize_google] raises or returns the text. *)
Inductive utterance : Type :=
| NoAudio (e : exn)
| NotRecognized (e : exn)
| Said (text : string).

Definition recognize_google (u : utterance) : M string :=
  match u with
  | NoAudio e => raise e
  | NotRecognized e => raise e
  | Said text => ret text
  end.

(** [obj[key]] and [obj.get(key, default)] on a decoded value. *)
Definition subscript (obj : json) (key : string) : M json :=
  match obj with
  | JObj members => or_raise KeyError (dict_lookup key members)
  | _ => raise TypeError
  end.

Definition py_get (obj : json) (key : string) (default : json) : M json :=
  match obj with
  | JObj members => ret (dict_get key default members)
  | _ => raise AttributeError
  end.

(** The number in an arithmetic operand, [TypeError] otherwise. *)
Definition number (j : json) : M Q := or_raise TypeError (as_number j).

(** [vel_map[action]] *)
Fixpoint vel_lookup (vel_map : list (string * VelocityNedYaw)) (action : json)
  : option VelocityNedYaw :=
  match vel_map with
  | [] => None
  | (k, v) :: rest => if is_str action k then Some v else vel_lookup rest action
  end.

(** *** enhanced_voice_control *)

(** The [try] body of the loop from the line after [process_speech]
    returns: the dispatch on [command_result]. *)
Definition enhanced_command (E : Runtime) (command_result : json) : M ctl :=
  let TURN_SPEED := 30 in
  is_drone_command <- subscript command_result "is_drone_command";;
  if negb (truthy is_drone_command) then
    say "That sounds like general conversation";;
    say "I'm only responding to drone commands right now.";;
    ret Continue
  else
    say "LLM Interpretation";;
    action <- py_get command_result "action" JNull;;
    params <- py_get command_result "parameters" (JObj []);;
    if is_str action "exit" then
      say "Voice control ending...";;
      await E offboard_stop;;
      ret Break
    else if is_str action "land" then
      await E offboard_stop;;
      land E;;
      ret Break
    else if is_str action "return_home" then
      await E offboard_stop;;
      return_to_launch E;;
      ret Break
    else if is_str action "takeoff" then
      alt <- py_get params "distance" (JNum 2.0);;
      await E offboard_stop;;
      takeoff E alt;;
      await E offboard_start;;
      ret Continue
    else if is_str action "stop" then
      say "Stopping and hovering...";;
      yaw_heading <- get_yaw;;
      await E (offboard_set_velocity_ned (velocity_ned_yaw 0.0 0.0 0.0 yaw_heading));;
      ret Continue
    else if is_one_of action ["turn_right"; "turn_left"] then
      angle <- py_get params "angle" (JNum 90);;
      (if is_str action "turn_right" then
         a <- number angle;;
         yaw_heading <- get_yaw;;
         set_yaw (yaw_heading + a);;
         say "Turning right"
       else
         a <- number angle;;
         yaw_heading <- get_yaw;;
         set_yaw (yaw_heading - a);;
         say "Turning left");;
      yaw_heading <- get_yaw;;
      await E (offboard_set_velocity_ned (velocity_ned_yaw 0.0 0.0 0.0 yaw_heading));;
      a <- number angle;;
      sleep (a / TURN_SPEED);;
      ret Continue
    else if is_one_of action ["forward"; "backward"; "left"; "right"; "up"; "down"] then
      distance <- py_get params "distance" (JNum 2.0);;
      distance <- number distance;;
      let speed := py_min 3.0 (py_max 0.5 (distance / 1.5)) in
      let duration := distance / speed in
      yaw_heading <- get_yaw;;
      let vel_map :=
        [("forward", velocity_ned_yaw speed 0.0 0.0 yaw_heading);
         ("backward", velocity_ned_yaw (- speed) 0.0 0.0 yaw_heading);
         ("right", velocity_ned_yaw 0.0 speed 0.0 yaw_heading);
         ("left", velocity_ned_yaw 0.0 (- speed) 0.0 yaw_heading);
         ("up", velocity_ned_yaw 0.0 0.0 (- speed) yaw_heading);
         ("down", velocity_ned_yaw 0.0 0.0 speed yaw_heading)] in
      vel <- or_raise KeyError (vel_lookup vel_map action);;
      say "Moving";;
      await E (offboard_set_velocity_ned vel);;
      sleep duration;;
      await E (offboard_set_velocity_ned (velocity_ned_yaw 0.0 0.0 0.0 yaw_heading));;
      ret Continue
    else
      say "Unknown action";;
      ret Continue.

(** One pass through the loop.  [recognizer.listen] is called before the
    [try], so what it raises leaves the function. *)
Definition enhanced_iteration (E : Runtime) (input : utterance * llm_reply)
  : M ctl :=
  let '(u, reply) := input in
  say "Listening... (speak naturally)";;
  match u with
  | NoAudio e => raise e
  | _ =>
      try_except
        (speech <- recognize_google u;;
         say "You said";;
         command_result <- process_speech E reply speech;;
         enhanced_command E command_result)
        (fun e =>
           match e with
           | WaitTimeoutError =>
               say "No speech detected, still listening...";; ret Continue
           | UnknownValueError =>
               say "Could not understand what you said, please try again.";;
               ret Continue
           | _ => say "Error";; ret Continue
           end)
  end.

Definition enhanced_voice_control (E : Runtime)
  (inputs : list (utterance * llm_reply)) : M session :=
  say "Enhanced Voice Control Active";;
  set_yaw 0.0;;
  yaw_heading <- get_yaw;;
  await E (offboard_set_velocity_ned (velocity_ned_yaw 0.0 0.0 0.0 yaw_heading));;
  started <- try_except (await E offboard_start;; ret true)
               (fun _ => say "[x] Could not start Offboard mode";; ret false);;
  if started : bool then while_true (enhanced_iteration E) inputs
  else ret Returned.

(** *** manual_control *)

Definition manual_iteration (E : Runtime) (line : string) : M ctl :=
  let MAX_SPEED := 2.0 in
  let MIN_SPEED := 0.2 in
  let TIME_GOAL := 1.5 in
  let TURN_SPEED := 30 in
  let cmd := lower (strip line) in
  if String.eqb cmd "exit" then
    await E offboard_stop;;
    ret Break
  else if String.eqb cmd "land" then
    await E offboard_stop;;
    land E;;
    ret Break
  else if String.eqb cmd "rth" then
    await E offboard_stop;;
    return_to_launch E;;
    ret Break
  else if String.eqb cmd "debug" then
    debug_telemetry E;;
    ret Continue
  else if startswith "turn_r" cmd then
    try_except
      (match split_ws cmd with
       | [_; deg] =>
           deg <- or_raise ValueError (py_float E deg);;
           yaw_heading <- get_yaw;;
           set_yaw (yaw_heading + deg);;
           say "Turning right";;
           yaw_heading <- get_yaw;;
           await E (offboard_set_velocity_ned (velocity_ned_yaw 0.0 0.0 0.0 yaw_heading));;
           sleep (deg / TURN_SPEED)
       | _ => raise ValueError
       end)
      (fun _ => say "[x] Format: turn_r <angle>");;
    ret Continue
  else if startswith "turn_l" cmd then
    try_except
      (match split_ws cmd with
       | [_; deg] =>
           deg <- or_raise ValueError (py_float E deg);;
           yaw_heading <- get_yaw;;
           set_yaw (yaw_heading - deg);;
           say "Turning left";;
           yaw_heading <- get_yaw;;
           await E (offboard_set_velocity_ned (velocity_ned_yaw 0.0 0.0 0.0 yaw_heading));;
           sleep (deg / TURN_SPEED)
       | _ => raise ValueError
       end)
      (fun _ => say "[x] Format: turn_l <angle>");;
    ret Continue
  else if String.eqb cmd "turn_b" then
    yaw_heading <- get_yaw;;
    set_yaw (yaw_heading + 180);;
    say "Turning back (180)";;
    yaw_heading <- get_yaw;;
    await E (offboard_set_velocity_ned (velocity_ned_yaw 0.0 0.0 0.0 yaw_heading));;
    sleep (180 / TURN_SPEED);;
    ret Continue
  else
    try_except
      (match split_ws cmd with
       | [direction; distance] =>
           distance <- or_raise ValueError (py_float E distance);;
           let distance := py_max 0.1 (py_min 5.0 distance) in
           let speed := py_min MAX_SPEED (py_max MIN_SPEED (distance / TIME_GOAL)) in
           let duration := distance / speed in
           yaw_heading <- get_yaw;;
           let vel :=
             if String.eqb direction "f" then Some (velocity_ned_yaw speed 0.0 0.0 yaw_heading)
             else if String.eqb direction "b" then Some (velocity_ned_yaw (- speed) 0.0 0.0 yaw_heading)
             else if String.eqb direction "r" then Some (velocity_ned_yaw 0.0 speed 0.0 yaw_heading)
             else if String.eqb direction "l" then Some (velocity_ned_yaw 0.0 (- speed) 0.0 yaw_heading)
             else if String.eqb direction "u" then Some (velocity_ned_yaw 0.0 0.0 (- speed) yaw_heading)
             else if String.eqb direction "d" then Some (velocity_ned_yaw 0.0 0.0 speed yaw_heading)
             else None in
           match vel with
           | None =>
               say "[x] Unknown direction.";;
               ret Continue
           | Some vel =>
               say "Moving";;
               await E (offboard_set_velocity_ned vel);;
               sleep duration;;
               await E (offboard_set_velocity_ned (velocity_ned_yaw 0.0 0.0 0.0 yaw_heading));;
               ret Continue
           end
       | _ => raise ValueError
       end)
      (fun _ => say "[x] Error";; ret Continue).

Definition manual_control (E : Runtime) (lines : list string) : M session :=
  say "Manual control:";;
  set_yaw 0.0;;
  yaw_heading <- get_yaw;;
  await E (offboard_set_velocity_ned (velocity_ned_yaw 0.0 0.0 0.0 yaw_heading));;
  started <- try_except (await E offboard_start;; ret true)
               (fun _ => say "[x] Could not start Offboard mode";; ret false);;
  if started : bool then while_true (manual_iteration E) lines
  else ret Returned.

(** *** voice_control_basic *)

Definition basic_iteration (E : Runtime) (u : utterance) : M ctl :=
  let FIXED_DIST := 5.0 in
  let SPEED := 2.0 in
  say "Listening...";;
  match u with
  | NoAudio e => raise e
  | _ =>
      try_except
        (heard <- recognize_google u;;
         let speech := lower heard in
         say "You said";;
         flow <-
           (if contains "exit" speech then
              await E offboard_stop;;
              ret Break
            else if contains "land" speech then
              await E offboard_stop;;
              land E;;
              ret Break
            else if contains "return" speech || contains "home" speech then
              await E offboard_stop;;
              return_to_launch E;;
              ret Break
            else if contains "turn right" speech then
              try_except
                (deg <- or_raise ValueError
                          (py_int E (strip (split_last "right" speech)));;
                 yaw_heading <- get_yaw;;
                 set_yaw (yaw_heading + inject_Z deg);;
                 yaw_heading <- get_yaw;;
                 await E (offboard_set_velocity_ned (velocity_ned_yaw 0.0 0.0 0.0 yaw_heading));;
                 sleep (inject_Z deg / 30))
                (fun _ => say "[x] Say: turn right <degrees>");;
              ret Continue
            else if contains "turn left" speech then
              try_except
                (deg <- or_raise ValueError
                          (py_int E (strip (split_last "left" speech)));;
                 yaw_heading <- get_yaw;;
                 set_yaw (yaw_heading - inject_Z deg);;
                 yaw_heading <- get_yaw;;
                 await E (offboard_set_velocity_ned (velocity_ned_yaw 0.0 0.0 0.0 yaw_heading));;
                 sleep (inject_Z deg / 30))
                (fun _ => say "[x] Say: turn left <degrees>");;
              ret Continue
            else if contains "forward" speech then
              yaw_heading <- get_yaw;;
              let vel := velocity_ned_yaw SPEED 0.0 0.0 yaw_heading in
              await E (offboard_set_velocity_ned vel);;
              sleep (FIXED_DIST / SPEED);;
              ret Continue
            else if contains "back" speech then
              yaw_heading <- get_yaw;;
              let vel := velocity_ned_yaw (- SPEED) 0.0 0.0 yaw_heading in
              await E (offboard_set_velocity_ned vel);;
              sleep (FIXED_DIST / SPEED);;
              ret Continue
            else if contains "right" speech && negb (contains "turn" speech) then
              yaw_heading <- get_yaw;;
              let vel := velocity_ned_yaw 0.0 SPEED 0.0 yaw_heading in
              await E (offboard_set_velocity_ned vel);;
              sleep (FIXED_DIST / SPEED);;
              ret Continue
            else if contains "left" speech && negb (contains "turn" speech) then
              yaw_heading <- get_yaw;;
              let vel := velocity_ned_yaw 0.0 (- SPEED) 0.0 yaw_heading in
              await E (offboard_set_velocity_ned vel);;
              sleep (FIXED_DIST / SPEED);;
              ret Continue
            else if contains "up" speech then
              yaw_heading <- get_yaw;;
              let vel := velocity_ned_yaw 0.0 0.0 (- SPEED) yaw_heading in
              await E (offboard_set_velocity_ned vel);;
              sleep (FIXED_DIST / SPEED);;
              ret Continue
            else if contains "down" speech then
              yaw_heading <- get_yaw;;
              let vel := velocity_ned_yaw 0.0 0.0 SPEED yaw_heading in
              await E (offboard_set_velocity_ned vel);;
              sleep (FIXED_DIST / SPEED);;
              ret Continue
            else
              say "[x] Unrecognized command.";;
              ret Continue);;
         match flow with
         | Break => ret Break
         | Continue =>
             (* Always stop after each move *)
             yaw_heading <- get_yaw;;
             await E (offboard_set_velocity_ned (velocity_ned_yaw 0.0 0.0 0.0 yaw_heading));;
             ret Continue
         end)
        (fun e =>
           match e with
           | UnknownValueError => say "[x] Could not understand audio.";; ret Continue
           | _ => say "[x] Error";; ret Continue
           end)
  end.

Definition voice_control_basic (E : Runtime) (inputs : list utterance)
  : M session :=
  say "Basic Voice Control Active";;
  set_yaw 0.0;;
  yaw_heading <- get_yaw;;
  await E (offboard_set_velocity_ned (velocity_ned_yaw 0.0 0.0 0.0 yaw_heading));;
  started <- try_except (await E offboard_start;; ret true)
               (fun _ => say "[x] Could not start Offboard mode";; ret false);;
  if started : bool then while_true (basic_iteration E) inputs
  else ret Returned.

(** *** connect, arm *)

(** The [async for] of [connect] over [drone.core.connection_state()].
    Each item of [connection_states] is what one step of the stream gives:
    the [is_connected] flag of the state it yields, or the exception it
    raises instead.  The loop is inside no [try]. *)
Fixpoint await_connection (connection_states : list (exn + bool)) : M unit :=
  match connection_states with
  | [] => ret tt
  | inl e :: _ => raise e
  | inr is_connected :: rest =>
      if is_connected : bool then say "Connected to drone."
      else await_connection rest
  end.

Definition connect (E : Runtime) (connection_states : list (exn + bool))
  : M unit :=
  await E (system_connect "udp://:14540");;
  say "Connecting...";;
  await_connection connection_states.

Definition arm (E : Runtime) : M unit :=
  say "Arming...";;
  await E action_arm;;
  sleep 2.

(** *** menu *)

(** What [menu] finds when it starts: the value of [GEMINI_API_KEY] in the
    environment if it is set, the line typed at the key prompt, and the
    exception [DroneCommandProcessor(API_KEY)] raises, if any. *)
Record menu_setup : Type := {
  api_key_from_env : option string;
  typed_api_key : string;
  processor_init : option exn
}.

(** One pass through the menu: the line typed at [Enter choice:] and the
    input read by the loop the choice enters. *)
Record menu_input : Type := {
  choice : string;
  manual_lines : list string;
  enhanced_inputs : list (utterance * llm_reply);
  basic_inputs : list utterance
}.

(** How one pass through the menu ends; [MenuAwaiting] when the loop it
    entered waits for input beyond the input given. *)
Inductive menu_flow : Type := MenuContinue | MenuBreak | MenuAwaiting.

Definition after_loop (s : session) : menu_flow :=
  match s with
  | Returned => MenuContinue
  | AwaitingInput => MenuAwaiting
  end.

(** The first part of [menu]: [true] when [llm_processor] is a processor,
    [false] when it is [None]. *)
Definition make_llm_processor (setup : menu_setup) : M bool :=
  say "Setting up Google Gemini 2.5 Flash integration...";;
  API_KEY <-
    (match api_key_from_env setup with
     | Some key =>
         if negb (String.eqb key "") then
           say "Found GEMINI_API_KEY environment variable";;
           ret key
         else ret (strip (typed_api_key setup))
     | None => ret (strip (typed_api_key setup))
     end);;
  if negb (String.eqb API_KEY "") then
    try_except
      (match processor_init setup with
       | Some e => raise e
       | None =>
           say "Google Gemini 2.5 Flash processor initialized successfully!";;
           ret true
       end)
      (fun _ =>
         say "[!] Failed to initialize Gemini";;
         say "    Falling back to basic voice control...";;
         ret false)
  else ret false.

Definition menu_iteration (E : Runtime) (llm_processor : bool)
  (input : menu_input) : M menu_flow :=
  say "Choose an option:";;
  say "1) Arm";;
  say "2) Take off";;
  say "3) Manual control (distance + turning)";;
  say "4) Return to launch";;
  say "5) Land";;
  say "6) Exit";;
  (if llm_processor
   then say "7) Enhanced Voice Control (with Gemini 2.5 Flash)"
   else say "7) Basic Voice Control");;
  try_except
    (if String.eqb (choice input) "1" then
       arm E;;
       ret MenuContinue
     else if String.eqb (choice input) "2" then
       takeoff E (JNum 2.0);;
       ret MenuContinue
     else if String.eqb (choice input) "3" then
       s <- manual_control E (manual_lines input);;
       ret (after_loop s)
     else if String.eqb (choice input) "4" then
       return_to_launch E;;
       ret MenuContinue
     else if String.eqb (choice input) "5" then
       land E;;
       ret MenuContinue
     else if String.eqb (choice input) "6" then
       say "Exiting and stopping offboard if active.";;
       try_except (await E offboard_stop) (fun _ => ret tt);;
       ret MenuBreak
     else if String.eqb (choice input) "7" then
       if llm_processor then
         s <- enhanced_voice_control E (enhanced_inputs input);;
         ret (after_loop s)
       else
         s <- voice_control_basic E (basic_inputs input);;
         ret (after_loop s)
     else
       say "[x] Invalid option.";;
       ret MenuContinue)
    (fun _ => say "[x] Error";; ret MenuContinue).

Fixpoint menu_loop (E : Runtime) (llm_processor : bool)
  (inputs : list menu_input) : M session :=
  match inputs with
  | [] => ret AwaitingInput
  | input :: rest =>
      bind (menu_iteration E llm_processor input) (fun flow =>
        match flow with
        | MenuContinue => menu_loop E llm_processor rest
        | MenuBreak => ret Returned
        | MenuAwaiting => ret AwaitingInput
        end)
  end.

Definition menu (E : Runtime) (setup : menu_setup)
  (connection_states : list (exn + bool)) (inputs : list menu_input)
  : M session :=
  llm_processor <- make_llm_processor setup;;
  connect E connection_states;;
  s <- menu_loop E llm_processor inputs;;
  match s with
  | Returned => say "Session ended.";; ret Returned
  | AwaitingInput => ret AwaitingInput
  end.

End VoiceControl.

(** ** offboard_control.py *)

Module OffboardControl.
Import Effects.
Local Open Scope string_scope.
Local Open Scope Q_scope.
Local Open Scope py_scope.

(** [run].  [connection_states] are the [is_connected] flags the connection
    stream yields, [healths] the pairs ([is_global_position_ok],
    [is_home_position_ok]) the health stream yields. *)
Definition run (E : Runtime) (connection_states : list bool)
  (healths : list (bool * bool)) : M unit :=
  await E (system_connect "udp://:14540");;
  say "Waiting for drone to connect...";;
  (if existsb (fun is_connected => is_connected) connection_states
   then say "Drone discovered with UUID" else ret tt);;
  say "Waiting for drone to have a global position estimate...";;
  (if existsb (fun h => fst h && snd h) healths
   then say "Global position estimate OK" else ret tt);;
  say "Arming...";;
  await E action_arm;;
  say "Taking off...";;
  await E action_takeoff;;
  sleep 5;;
  say "Starting offboard mode...";;
  await E (offboard_set_position_ned (position_ned_yaw 0.0 0.0 0.0 0.0));;
  started <- try_except (await E offboard_start;; ret true)
               (fun error =>
                  match error with
                  | OffboardError =>
                      say "Starting offboard mode failed with error";;
                      await E action_disarm;;
                      ret false
                  | _ => raise error
                  end);;
  if started : bool then
    say "Flying in a square pattern...";;
    await E (offboard_set_position_ned (position_ned_yaw 0.0 0.0 (- 5.0) 0.0));;
    sleep 5;;
    await E (offboard_set_position_ned (position_ned_yaw 5.0 0.0 (- 5.0) 0.0));;
    sleep 5;;
    await E (offboard_set_position_ned (position_ned_yaw 5.0 5.0 (- 5.0) 0.0));;
    sleep 5;;
    await E (offboard_set_position_ned (position_ned_yaw 0.0 5.0 (- 5.0) 0.0));;
    sleep 5;;
    await E (offboard_set_position_ned (position_ned_yaw 0.0 0.0 (- 5.0) 0.0));;
    sleep 5;;
    say "Landing...";;
    await E action_land
  else ret tt.

End OffboardControl.

(** ** Vehicles and runtimes for concrete runs *)

Module Instances.
Import Effects.

(** A vehicle that accepts every call. *)
Definition willing : list event -> event -> option exn := fun _ _ => None.

(** A vehicle that refuses to start offboard mode and accepts the rest. *)
Definition no_offboard : list event -> event -> option exn :=
  fun _ call =>
    match call with
    | offboard_start => Some OffboardError
    | _ => None
    end.

Definition runtime (v : list event -> event -> option exn) : Runtime :=
  {| vehicle := v;
     json_loads := Json.loads_model;
     py_float := PyNum.float_model;
     py_int := PyNum.int_model |}.

(** The reply the prompt asks for to "move forward 3 meters", bare, inside a
    markdown code block, and inside a code block followed by prose. *)
Local Open Scope string_scope.

Definition newline : string := String (ascii_of_nat 10) EmptyString.

Definition forward_3_text : string :=
  "{" ++ Json.quoted "is_drone_command" ++ ": true, "
      ++ Json.quoted "action" ++ ": " ++ Json.quoted "forward" ++ ", "
      ++ Json.quoted "parameters" ++ ": {" ++ Json.quoted "distance" ++ ": 3.0}}".

Definition forward_3_record : Json.json :=
  Json.JObj [("is_drone_command", Json.JBool true);
             ("action", Json.JStr "forward");
             ("parameters", Json.JObj [("distance", Json.JNum 3.0)])].


Definition fenced_reply : string :=
  "```json" ++ newline ++ forward_3_text ++ newline ++ "```".

Definition fenced_reply_with_prose : string :=
  fenced_reply ++ newline ++ "Moving forward 3 meters.".

End Instances.

(** ** Vocabulary of the properties *)

Module Props.
Import PyStr PyNum Json Effects VoiceControl.
Local Open Scope string_scope.
Local Open Scope Q_scope.

(** The vehicle accepts every call. *)
Definition accepting (E : Runtime) : Prop :=
  forall history call, vehicle E history call = None.


(** The six movement commands and the setpoint the design gives each:
    forward and backward along the first (north) component, right and left
    along the second (east), down and up along the third (down). *)
Inductive direction : Type := Forward | Backward | Left | Right | Up | Down.

Definition direction_name (d : direction) : string :=
  match d with
  | Forward => "forward"
  | Backward => "backward"
  | Left => "left"
  | Right => "right"
  | Up => "up"
  | Down => "down"
  end.

Definition axis_velocity (d : direction) (speed yaw : Q) : VelocityNedYaw :=
  match d with
  | Forward => velocity_ned_yaw speed 0.0 0.0 yaw
  | Backward => velocity_ned_yaw (- speed) 0.0 0.0 yaw
  | Right => velocity_ned_yaw 0.0 speed 0.0 yaw
  | Left => velocity_ned_yaw 0.0 (- speed) 0.0 yaw
  | Up => velocity_ned_yaw 0.0 0.0 (- speed) yaw
  | Down => velocity_ned_yaw 0.0 0.0 speed yaw
  end.

(** The letter the manual loop reads for each direction. *)
Definition manual_direction_name (d : direction) : string :=
  match d with
  | Forward => "f"
  | Backward => "b"
  | Left => "l"
  | Right => "r"
  | Up => "u"
  | Down => "d"
  end.

(** The value [process_speech] hands to its caller, or the exception that
    reaches the caller. *)
Definition interpret (E : Runtime) (reply : llm_reply) (speech_text : string)
  : exn + json :=
  result (run_from_start (process_speech E reply speech_text)).

(** A well-formed command record, after the record the design and the prompt
    describe: a dict whose [is_drone_command] is a boolean, and which for a
    command names an [action] and carries a [parameters] dict. *)
Definition well_formed_record (j : json) : bool :=
  match j with
  | JObj members =>
      match dict_lookup "is_drone_command" members with
      | Some (JBool true) =>
          match dict_lookup "action" members, dict_lookup "parameters" members with
          | Some (JStr _), Some (JObj _) => true
          | _, _ => false
          end
      | Some (JBool false) => true
      | _ => false
      end
  | _ => false
  end.

(** The fallback matcher as the design writes it: an ordered table of
    checks on the lowered text, the first check that holds giving the
    record. *)
Definition command_record (action : string) (parameters : list (string * json))
  : json :=
  JObj [("is_drone_command", JBool true); ("action", JStr action);
        ("parameters", JObj parameters)].

Definition not_a_command : json :=
  JObj [("is_drone_command", JBool false);
        ("interpretation", JStr "Not a drone command")].

Definition fallback_checks : list ((string -> bool) * json) :=
  [ (any_in ["forward"; "ahead"; "front"], command_record "forward" [("distance", JNum 2.0)]);
    (any_in ["back"; "backward"; "reverse"], command_record "backward" [("distance", JNum 2.0)]);
    ((fun s => contains "left" s && negb (contains "turn" s)),
       command_record "left" [("distance", JNum 2.0)]);
    ((fun s => contains "right" s && negb (contains "turn" s)),
       command_record "right" [("distance", JNum 2.0)]);
    (any_in ["up"; "rise"; "ascend"], command_record "up" [("distance", JNum 2.0)]);
    (any_in ["down"; "descend"; "lower"], command_record "down" [("distance", JNum 2.0)]);
    (contains "turn right", command_record "turn_right" [("angle", JNum 90)]);
    (contains "turn left", command_record "turn_left" [("angle", JNum 90)]);
    (any_in ["land"; "landing"], command_record "land" []);
    (any_in ["takeoff"; "take off"; "launch"], command_record "takeoff" []);
    (any_in ["home"; "return"; "rth"], command_record "return_home" []);
    (any_in ["stop"; "halt"; "hover"], command_record "stop" []);
    (any_in ["exit"; "quit"; "end"], command_record "exit" []) ].

Fixpoint first_match (checks : list ((string -> bool) * json)) (speech : string)
  : json :=
  match checks with
  | [] => not_a_command
  | (check, record) :: rest =>
      if check speech then record else first_match rest speech
  end.

(** The two rotation commands and the heading each one leads to. *)
Inductive turn : Type := TurnRight | TurnLeft.

Definition turn_name (t : turn) : string :=
  match t with
  | TurnRight => "turn_right"
  | TurnLeft => "turn_left"
  end.

Definition turned (t : turn) (yaw angle : Q) : Q :=
  match t with
  | TurnRight => yaw + angle
  | TurnLeft => yaw - angle
  end.

(** The commands that end a loop, and the vehicle calls and sleeps each one
    leads to when offboard streaming is stopped first. *)
Inductive terminal : Type := Exit | Land | ReturnHome.

Definition terminal_actions (t : terminal) : list event :=
  match t with
  | Exit => [offboard_stop]
  | Land => [offboard_stop; action_land; asyncio_sleep 5]
  | ReturnHome => [offboard_stop; action_return_to_launch; asyncio_sleep 5]
  end.

(** The name of each in the enhanced voice loop and in the manual loop. *)
Definition enhanced_terminal_name (t : terminal) : string :=
  match t with
  | Exit => "exit"
  | Land => "land"
  | ReturnHome => "return_home"
  end.

Definition manual_terminal_name (t : terminal) : string :=
  match t with
  | Exit => "exit"
  | Land => "land"
  | ReturnHome => "rth"
  end.

Definition is_terminal_action (e : event) : bool :=
  match e with
  | action_land | action_return_to_launch => true
  | _ => false
  end.

(** No land or return-to-launch call without an earlier [offboard_stop]:
    [stopped] tells whether a stop has been seen. *)
Fixpoint stop_precedes_terminal (stopped : bool) (events : list event) : bool :=
  match events with
  | [] => true
  | e :: rest =>
      match e with
      | offboard_stop => stop_precedes_terminal true rest
      | _ => (negb (is_terminal_action e) || stopped)
             && stop_precedes_terminal stopped rest
      end
  end.

(** How the basic voice loop reads the lowered speech, check by check in
    the order of its [if] chain: as a command that ends the loop, else as a
    rotation, else as a movement. *)
Definition basic_terminal (speech : string) : option terminal :=
  if contains "exit" speech then Some Exit
  else if contains "land" speech then Some Land
  else if contains "return" speech || contains "home" speech then Some ReturnHome
  else None.

Definition basic_turn (speech : string) : option turn :=
  if contains "turn right" speech then Some TurnRight
  else if contains "turn left" speech then Some TurnLeft
  else None.

Definition basic_direction (speech : string) : option direction :=
  if contains "forward" speech then Some Forward
  else if contains "back" speech then Some Backward
  else if contains "right" speech && negb (contains "turn" speech) then Some Right
  else if contains "left" speech && negb (contains "turn" speech) then Some Left
  else if contains "up" speech then Some Up
  else if contains "down" speech then Some Down
  else None.

(** The velocity setpoint issued last, if any. *)
Definition last_setpoint (events : list event) : option VelocityNedYaw :=
  fold_left
    (fun acc e =>
       match e with
       | offboard_set_velocity_ned v => Some v
       | _ => acc
       end)
    events None.


(** Numbers well inside the range of a double.  Beyond that range Python
    does not compute as the exact numbers here do: an int too large for a
    float raises [OverflowError] when it is divided by one, and a float
    literal too large is infinite. *)
Definition in_double_range (x : Q) : Prop := Qabs x <= inject_Z (2 ^ 1000).



End Props.


(** ** Vocabulary of the further properties *)

Module MoreProps.
Import PyStr PyNum Json Effects VoiceControl OffboardControl Props.
Local Open Scope string_scope.
Local Open Scope Q_scope.

(** The vehicle accepts every velocity setpoint. *)
Definition accepts_setpoints (E : Runtime) : Prop :=
  forall history v, vehicle E history (offboard_set_velocity_ned v) = None.

(** The vehicle refuses every request to start offboard mode. *)
Definition refuses_start (E : Runtime) : Prop :=
  forall history, exists e, vehicle E history offboard_start = Some e.

(** The setpoint [takeoff] climbs with. *)
Definition ascent : VelocityNedYaw := velocity_ned_yaw 0.0 0.0 (- 1.0) 0.0.

(** The [action] entry of a record, [None] in Python being [JNull]. *)
Definition record_action (r : json) : json :=
  match r with
  | JObj members => dict_get "action" JNull members
  | _ => JNull
  end.

(** The action names the enhanced loop acts on. *)
Definition enhanced_actions : list string :=
  ["exit"; "land"; "return_home"; "takeoff"; "stop"; "turn_right"; "turn_left";
   "forward"; "backward"; "left"; "right"; "up"; "down"].

(** What [process_speech] hands over is nothing the enhanced loop acts on:
    an exception, a value that is not a dict or lacks [is_drone_command], a
    record whose [is_drone_command] is false, or one whose action is none of
    the names the loop knows. *)
Definition ignored (interpreted : exn + json) : Prop :=
  match interpreted with
  | inl _ => True
  | inr (JObj members) =>
      match dict_lookup "is_drone_command" members with
      | None => True
      | Some flag =>
          truthy flag = false
          \/ is_one_of (dict_get "action" JNull members) enhanced_actions = false
      end
  | inr _ => True
  end.

(** The number a movement or rotation command needs is missing: the
    record's parameters are not a dict, or the entry under [key] ([default]
    when absent) is not a number. *)
Definition lacks_number (members : list (string * json)) (key : string)
  (default : json) : Prop :=
  match dict_get "parameters" (JObj []) members with
  | JObj params => as_number (dict_get key default params) = None
  | _ => True
  end.

(** The calls a command loop makes: velocity setpoints, offboard start and
    stop, land, return to launch, telemetry reads and sleeps, and none of
    connect, arm, disarm, the vehicle's own takeoff or a position
    setpoint. *)
Definition loop_call (e : event) : bool :=
  match e with
  | system_connect _ | action_arm | action_disarm | action_takeoff
  | offboard_set_position_ned _ => false
  | _ => true
  end.

(** The manual commands that are run outside any [try]. *)
Definition manual_unprotected : list string :=
  ["exit"; "land"; "rth"; "debug"; "turn_b"].

(** The two tokens of a manual command with its number read, when the line
    has exactly two tokens and the second is a number. *)
Definition manual_argument (E : Runtime) (cmd : string) : option (string * Q) :=
  match split_ws cmd with
  | [word; arg] =>
      match py_float E arg with
      | Some f => Some (word, f)
      | None => None
      end
  | _ => None
  end.

(** The direction letters of the manual loop. *)
Definition manual_directions : list string := ["f"; "b"; "r"; "l"; "u"; "d"].

(** The words the fallback matcher looks for, by the action it answers. *)
Definition fallback_keywords (action : string) : list string :=
  if String.eqb action "forward" then ["forward"; "ahead"; "front"]
  else if String.eqb action "backward" then ["back"; "backward"; "reverse"]
  else if String.eqb action "left" then ["left"]
  else if String.eqb action "right" then ["right"]
  else if String.eqb action "up" then ["up"; "rise"; "ascend"]
  else if String.eqb action "down" then ["down"; "descend"; "lower"]
  else if String.eqb action "turn_right" then ["turn right"]
  else if String.eqb action "turn_left" then ["turn left"]
  else if String.eqb action "land" then ["land"; "landing"]
  else if String.eqb action "takeoff" then ["takeoff"; "take off"; "launch"]
  else if String.eqb action "return_home" then ["home"; "return"; "rth"]
  else if String.eqb action "stop" then ["stop"; "halt"; "hover"]
  else if String.eqb action "exit" then ["exit"; "quit"; "end"]
  else [].

(** The calls and sleeps of the scripted flight when every call is
    accepted, and those of a flight whose offboard start is rejected. *)
Definition full_flight : list event :=
  [system_connect "udp://:14540"; action_arm; action_takeoff; asyncio_sleep 5;
   offboard_set_position_ned (position_ned_yaw 0.0 0.0 0.0 0.0);
   offboard_start;
   offboard_set_position_ned (position_ned_yaw 0.0 0.0 (- 5.0) 0.0);
   asyncio_sleep 5;
   offboard_set_position_ned (position_ned_yaw 5.0 0.0 (- 5.0) 0.0);
   asyncio_sleep 5;
   offboard_set_position_ned (position_ned_yaw 5.0 5.0 (- 5.0) 0.0);
   asyncio_sleep 5;
   offboard_set_position_ned (position_ned_yaw 0.0 5.0 (- 5.0) 0.0);
   asyncio_sleep 5;
   offboard_set_position_ned (position_ned_yaw 0.0 0.0 (- 5.0) 0.0);
   asyncio_sleep 5;
   action_land].

Definition rejected_flight : list event :=
  [system_connect "udp://:14540"; action_arm; action_takeoff; asyncio_sleep 5;
   offboard_set_position_ned (position_ned_yaw 0.0 0.0 0.0 0.0);
   offboard_start; action_disarm].

(** Every call to the vehicle among [events], issued in this order after
    [history], was accepted.  Console lines and sleeps are no calls. *)
Fixpoint all_accepted (E : Runtime) (history events : list event) : Prop :=
  match events with
  | [] => True
  | e :: rest =>
      match e with
      | print _ | asyncio_sleep _ => True
      | _ => vehicle E history e = None
      end
      /\ all_accepted E (history ++ [e]) rest
  end.

(** What a command loop does when it cannot start offboard mode: it sends
    the zero setpoint, asks for the start, and returns. *)
Definition start_refused_session (o : outcome session) : Prop :=
  result o = inr Returned
  /\ actions (issued o) =
       [offboard_set_velocity_ned (velocity_ned_yaw 0.0 0.0 0.0 0.0);
        offboard_start].

(** The first [recognizer.listen] of the voice loop that choice 7 enters
    raises [e]. *)
Definition first_listen_fails (llm_processor : bool) (input : menu_input)
  (e : exn) : Prop :=
  if llm_processor
  then exists reply rest, enhanced_inputs input = (NoAudio e, reply) :: rest
  else exists rest, basic_inputs input = NoAudio e :: rest.

(** A reply naming the takeoff action with a [null] distance, as the prompt's
    record shape allows. *)
Definition takeoff_null_text : string :=
  "{" ++ quoted "is_drone_command" ++ ": true, "
      ++ quoted "action" ++ ": " ++ quoted "takeoff" ++ ", "
      ++ quoted "parameters" ++ ": {" ++ quoted "distance" ++ ": null}}".

End MoreProps.

(** * Properties *)

Import PyStr PyNum Json Effects VoiceControl OffboardControl Instances Props.
Local Open Scope string_scope.
Local Open Scope Q_scope.

(** ** Running a computation on a vehicle that accepts every call *)

Ltac unfold_monad :=
  cbv beta iota zeta
    delta [bind try_except await emit say sleep ret raise get_yaw set_yaw
           or_raise].

Ltac run_accepting Hacc :=
  repeat first
    [ rewrite (Hacc _ _)
    | progress unfold_monad
    | progress cbn ].

(** ** Command interpretation *)

(** *** The fallback matcher *)

Lemma any_in_one word s : any_in [word] s = contains word s.
Proof.
  unfold any_in. cbn [existsb]. apply orb_false_r.
Qed.

(** C4: the fallback matcher is the ordered table of keyword checks, first
    match winning, in the order forward, backward, left and right without
    "turn", up, down, "turn right", "turn left", land, takeoff, home, stop,
    exit; movements get distance 2.0, rotations angle 90, and a text no
    check matches gets the record with [is_drone_command] false. *)
Theorem fallback_is_first_match (speech_text : string) :
  _fallback_processing speech_text = first_match fallback_checks (lower speech_text)
  /\ ((forall check record,
          In (check, record) fallback_checks -> check (lower speech_text) = false) ->
      _fallback_processing speech_text = not_a_command).
Proof.
  assert (Heq : _fallback_processing speech_text
                = first_match fallback_checks (lower speech_text)).
  { unfold _fallback_processing, fallback_checks, first_match, command_record,
      not_a_command.
    rewrite !any_in_one.
    repeat lazymatch goal with
           | |- (if ?c then _ else _) = (if ?c then _ else _) =>
               destruct c; [reflexivity |]
           end.
    reflexivity. }
  split; [exact Heq |].
  intros Hnone. rewrite Heq. clear Heq.
  induction fallback_checks as [| [check record] rest IH]; [reflexivity |].
  cbn [first_match]. rewrite (Hnone check record) by (left; reflexivity).
  apply IH. intros c r Hin. apply (Hnone c r). right. exact Hin.
Qed.

Lemma fallback_is_first_match_witness :
  _fallback_processing "How's the weather today?" = not_a_command.
Proof.
  apply (proj2 (fallback_is_first_match "How's the weather today?")).
  intros check record Hin. cbn in Hin.
  repeat (destruct Hin as [Hin | Hin];
          [injection Hin as <- _; reflexivity |]).
  destruct Hin.
Defined.

Lemma fallback_well_formed speech_text :
  well_formed_record (_fallback_processing speech_text) = true.
Proof.
  unfold _fallback_processing.
  repeat lazymatch goal with
         | |- context [if ?c then _ else _] => destruct c; [reflexivity |]
         end.
  reflexivity.
Qed.

(** *** process_speech *)

Lemma process_speech_outcome E reply speech_text h yaw :
  let o := process_speech E reply speech_text h yaw in
  result o = interpret E reply speech_text
  /\ heading o = yaw
  /\ actions (issued o) = [].
Proof.
  unfold interpret, run_from_start, process_speech.
  destruct reply as [e | [text |]].
  - destruct e; cbn; auto.
  - unfold_monad. destruct (json_loads E (clean_response_text text)); cbn; auto.
  - cbn. auto.
Qed.

Lemma interpret_request_raises E e speech_text :
  e <> JSONDecodeError ->
  interpret E (LlmRaises e) speech_text = inr (_fallback_processing speech_text).
Proof.
  intros He. unfold interpret, run_from_start, process_speech.
  destruct e; cbn; try reflexivity. now elim He.
Qed.

Lemma interpret_no_text E speech_text :
  interpret E (LlmResponse None) speech_text
  = inr (_fallback_processing speech_text).
Proof. reflexivity. Qed.

Lemma interpret_undecodable E text speech_text :
  json_loads E (clean_response_text text) = None ->
  interpret E (LlmResponse (Some text)) speech_text
  = inr (_fallback_processing speech_text).
Proof.
  intros Hloads. unfold interpret, run_from_start, process_speech.
  unfold_monad. now rewrite Hloads.
Qed.

Lemma interpret_decoded E text speech_text v :
  json_loads E (clean_response_text text) = Some v ->
  interpret E (LlmResponse (Some text)) speech_text = inr v.
Proof.
  intros Hloads. unfold interpret, run_from_start, process_speech.
  unfold_monad. now rewrite Hloads.
Qed.

(** C3, as the code has it: unless the request itself fails with a JSON
    decode error, [process_speech] raises nothing; it returns the decoded
    value as it is when the cleaned response decodes, and the fallback
    matcher's record, which is well formed, in every other case. *)
Theorem process_speech_returns E reply speech_text :
  reply <> LlmRaises JSONDecodeError ->
  interpret E reply speech_text =
    inr (match reply with
         | LlmResponse (Some text) =>
             match json_loads E (clean_response_text text) with
             | Some value => value
             | None => _fallback_processing speech_text
             end
         | _ => _fallback_processing speech_text
         end)
  /\ well_formed_record (_fallback_processing speech_text) = true.
Proof.
  intros Hreply. split; [| apply fallback_well_formed].
  destruct reply as [e | [text |]].
  - apply interpret_request_raises. intros ->. now apply Hreply.
  - destruct (json_loads E (clean_response_text text)) as [value |] eqn:Hloads.
    + now apply interpret_decoded.
    + now apply interpret_undecodable.
  - apply interpret_no_text.
Qed.

Lemma process_speech_returns_witness :
  interpret (runtime willing) (LlmRaises (OtherError "ServerError")) "land the drone"
  = inr (command_record "land" []).
Proof.
  refine (proj1 (@process_speech_returns (runtime willing)
                   (LlmRaises (OtherError "ServerError")) "land the drone" _)).
  discriminate.
Defined.

(** C3 as stated fails twice: a response that decodes to something other
    than a record is returned as it is, and a request that fails with a JSON
    decode error makes the first handler read the unbound [response]. *)
Lemma process_speech_not_always_a_record :
  interpret (runtime willing) (LlmResponse (Some "[]")) "land the drone"
  = inr (JArr [])
  /\ well_formed_record (JArr []) = false
  /\ interpret (runtime willing) (LlmRaises JSONDecodeError) "land the drone"
     = inl UnboundLocalError.
Proof.
  repeat split; reflexivity.
Qed.

(** *** Markdown code blocks *)

Lemma endswith_app p s : endswith p (s ++ p) = true.
Proof.
  induction s as [| c s IH].
  - cbn [append]. destruct p; cbn [endswith]; rewrite String.eqb_refl; reflexivity.
  - cbn [append endswith]. rewrite IH. apply orb_true_r.
Qed.

Lemma length_app s p : String.length (s ++ p) = (String.length s + String.length p)%nat.
Proof.
  induction s as [| c s IH]; cbn; [reflexivity | now rewrite IH].
Qed.

Lemma substring_app s p : substring 0 (String.length s) (s ++ p) = s.
Proof.
  induction s as [| c s IH]; cbn.
  - destruct p; reflexivity.
  - now rewrite IH.
Qed.

Lemma drop_last_app s p : drop_last (String.length p) (s ++ p) = s.
Proof.
  unfold drop_last. rewrite length_app.
  replace (String.length s + String.length p - String.length p)%nat
    with (String.length s) by lia.
  apply substring_app.
Qed.

Lemma clean_fenced text body :
  strip text = "```json" ++ body ++ "```" ->
  clean_response_text text = strip body.
Proof.
  intros Hstrip. unfold clean_response_text. rewrite Hstrip.
  cbn [append startswith Ascii.eqb Bool.eqb andb drop].
  rewrite endswith_app.
  pose proof (drop_last_app body "```") as Hdrop.
  cbn [String.length] in Hdrop. now rewrite Hdrop.
Qed.

Lemma clean_unclosed text rest :
  strip text = "```json" ++ rest ->
  endswith "```" rest = false ->
  clean_response_text text = strip rest.
Proof.
  intros Hstrip Hends. unfold clean_response_text. rewrite Hstrip.
  cbn [append startswith Ascii.eqb Bool.eqb andb drop].
  now rewrite Hends.
Qed.

(** C7, as the code has it: a response that, white space apart, starts with
    the opening fence and ends with the closing fence is decoded from the
    text between the two; where the closing fence is not the end of the
    response the text after the opening fence is decoded whole, closing
    fence and prose included; and whatever does not decode after cleaning is
    answered by the fallback matcher, no exception escaping. *)
Theorem fenced_response_decoding E text speech_text :
  (forall body,
      strip text = "```json" ++ body ++ "```" ->
      clean_response_text text = strip body
      /\ forall value,
          json_loads E (strip body) = Some value ->
          interpret E (LlmResponse (Some text)) speech_text = inr value)
  /\ (forall rest,
      strip text = "```json" ++ rest ->
      endswith "```" rest = false ->
      clean_response_text text = strip rest)
  /\ (json_loads E (clean_response_text text) = None ->
      interpret E (LlmResponse (Some text)) speech_text
      = inr (_fallback_processing speech_text)).
Proof.
  repeat apply conj.
  - intros body Hstrip. split; [now apply clean_fenced |].
    intros value Hloads. apply interpret_decoded.
    now rewrite (clean_fenced _ _ Hstrip).
  - intros rest. apply clean_unclosed.
  - apply interpret_undecodable.
Qed.

Lemma fenced_response_decoding_witness :
  interpret (runtime willing) (LlmResponse (Some fenced_reply))
    "move forward 3 meters" = inr forward_3_record.
Proof.
  refine (proj2 (proj1 (@fenced_response_decoding (runtime willing) fenced_reply
                          "move forward 3 meters")
                   (newline ++ forward_3_text ++ newline) _) forward_3_record _).
  - reflexivity.
  - reflexivity.
Defined.

(** C7 as stated fails on prose after the closing fence: the reply is not
    decoded, and the fallback matcher answers with its default distance
    instead of the distance in the reply. *)
Lemma fenced_reply_with_prose_not_parsed :
  interpret (runtime willing) (LlmResponse (Some fenced_reply_with_prose))
    "move forward 3 meters"
  = inr (command_record "forward" [("distance", JNum 2.0)])
  /\ command_record "forward" [("distance", JNum 2.0)] <> forward_3_record
  /\ json_loads (runtime willing) (clean_response_text fenced_reply_with_prose)
     = None.
Proof.
  repeat split; try reflexivity. discriminate.
Qed.

(** *** Recognised speech in the enhanced loop *)

Lemma actions_app events events' :
  actions (events ++ events') = (actions events ++ actions events')%list.
Proof. apply filter_app. Qed.

(** An iteration of the enhanced loop on recognised speech: what
    [process_speech] returns is handed to [enhanced_command]. *)
Lemma enhanced_iteration_said E text reply command_result h yaw acts yaw' c :
  interpret E reply text = inr command_result ->
  (forall h',
      let oc := enhanced_command E command_result h' yaw in
      actions (issued oc) = acts /\ heading oc = yaw' /\ result oc = inr c) ->
  let o := enhanced_iteration E (Said text, reply) h yaw in
  actions (issued o) = acts /\ heading o = yaw' /\ result o = inr c.
Proof.
  intros Hinterpret Hcommand.
  unfold enhanced_iteration, recognize_google. unfold_monad.
  lazymatch goal with
  | |- context [process_speech E reply text ?h0 yaw] =>
      destruct (process_speech_outcome E reply text h0 yaw) as (Hr & Hh & Ha);
      destruct (process_speech E reply text h0 yaw) as [events y r]
  end.
  cbn [result heading issued] in Hr, Hh, Ha. subst y.
  rewrite Hinterpret in Hr. subst r.
  lazymatch goal with
  | |- context [enhanced_command E command_result ?h' yaw] =>
      destruct (Hcommand h') as (Hacts & Hheading & Hresult);
      destruct (enhanced_command E command_result h' yaw) as [events' y r]
  end.
  cbn [result heading issued] in Hacts, Hheading, Hresult. subst y r.
  cbn [issued heading result].
  rewrite !actions_app, Ha, Hacts. cbn. auto.
Qed.

(** ** Adaptive speed *)

Ltac no_Qle_bool_in t :=
  lazymatch t with
  | context [Qle_bool _ _] => fail
  | _ => idtac
  end.

Ltac cases_Qle :=
  repeat once match goal with
         | |- context [Qle_bool ?a ?b] =>
             no_Qle_bool_in a; no_Qle_bool_in b;
             let H := fresh "Hle" in
             destruct (Qle_bool a b) eqn:H;
             [ apply Qle_bool_iff in H
             | apply not_true_iff_false in H; rewrite Qle_bool_iff in H ]
         end.




(** ** Movement in the enhanced voice loop *)

Lemma enhanced_movement_run E members flag params dir d h yaw :
  accepting E ->
  dict_lookup "is_drone_command" members = Some flag ->
  truthy flag = true ->
  dict_get "action" JNull members = JStr (direction_name dir) ->
  dict_get "parameters" (JObj []) members = JObj params ->
  as_number (dict_get "distance" (JNum 2.0) params) = Some d ->
  let speed := py_min 3.0 (py_max 0.5 (d / 1.5)) in
  let o := enhanced_command E (JObj members) h yaw in
  actions (issued o) =
    [offboard_set_velocity_ned (axis_velocity dir speed yaw);
     asyncio_sleep (d / speed);
     offboard_set_velocity_ned (zero_velocity yaw)]
  /\ heading o = yaw
  /\ result o = inr Continue.
Proof.
  intros Hacc Hflag Htruthy Haction Hparams Hd speed o. subst o speed.
  unfold enhanced_command, subscript, py_get, number.
  cbn. rewrite Hflag. cbn. rewrite Htruthy. cbn.
  rewrite Haction, Hparams.
  destruct dir; cbn; rewrite Hd; run_accepting Hacc; auto.
Qed.

Lemma enhanced_movement_iteration E text reply members flag params dir d h yaw :
  accepting E ->
  interpret E reply text = inr (JObj members) ->
  dict_lookup "is_drone_command" members = Some flag ->
  truthy flag = true ->
  dict_get "action" JNull members = JStr (direction_name dir) ->
  dict_get "parameters" (JObj []) members = JObj params ->
  as_number (dict_get "distance" (JNum 2.0) params) = Some d ->
  let speed := py_min 3.0 (py_max 0.5 (d / 1.5)) in
  let o := enhanced_iteration E (Said text, reply) h yaw in
  actions (issued o) =
    [offboard_set_velocity_ned (axis_velocity dir speed yaw);
     asyncio_sleep (d / speed);
     offboard_set_velocity_ned (zero_velocity yaw)]
  /\ heading o = yaw
  /\ result o = inr Continue.
Proof.
  intros Hacc Hinterpret Hflag Htruthy Haction Hparams Hd speed.
  apply enhanced_iteration_said with (command_result := JObj members);
    [exact Hinterpret |].
  intros h'. now apply enhanced_movement_run with (flag := flag) (params := params).
Qed.




(** ** Rotation *)


Lemma enhanced_rotation E members flag params t a h yaw :
  accepting E ->
  dict_lookup "is_drone_command" members = Some flag ->
  truthy flag = true ->
  dict_get "action" JNull members = JStr (turn_name t) ->
  dict_get "parameters" (JObj []) members = JObj params ->
  as_number (dict_get "angle" (JNum 90) params) = Some a ->
  let o := enhanced_command E (JObj members) h yaw in
  issued o =
    [print "LLM Interpretation";
     print (match t with TurnRight => "Turning right" | TurnLeft => "Turning left" end);
     offboard_set_velocity_ned (zero_velocity (turned t yaw a));
     asyncio_sleep (a / 30)]
  /\ heading o = turned t yaw a
  /\ result o = inr Continue.
Proof.
  intros Hacc Hflag Htruthy Haction Hparams Ha o. subst o.
  unfold enhanced_command, subscript, py_get, number.
  cbn. rewrite Hflag. cbn. rewrite Htruthy. cbn.
  rewrite Haction, Hparams.
  destruct t; cbn; rewrite Ha; run_accepting Hacc; auto.
Qed.

Lemma enhanced_rotation_iteration E text reply members flag params t a h yaw :
  accepting E ->
  interpret E reply text = inr (JObj members) ->
  dict_lookup "is_drone_command" members = Some flag ->
  truthy flag = true ->
  dict_get "action" JNull members = JStr (turn_name t) ->
  dict_get "parameters" (JObj []) members = JObj params ->
  as_number (dict_get "angle" (JNum 90) params) = Some a ->
  let o := enhanced_iteration E (Said text, reply) h yaw in
  actions (issued o) =
    [offboard_set_velocity_ned (zero_velocity (turned t yaw a));
     asyncio_sleep (a / 30)]
  /\ heading o = turned t yaw a
  /\ result o = inr Continue.
Proof.
  intros Hacc Hinterpret Hflag Htruthy Haction Hparams Ha.
  apply enhanced_iteration_said with (command_result := JObj members);
    [exact Hinterpret |].
  intros h'.
  destruct (@enhanced_rotation E members flag params t a h' yaw
              Hacc Hflag Htruthy Haction Hparams Ha) as (Hi & Hh & Hr).
  cbv zeta. rewrite Hi. repeat split; assumption.
Qed.



(** *** Sessions *)


Lemma while_true_break {I} (body : I -> M ctl) i rest h yaw :
  result (body i h yaw) = inr Break ->
  let o := body i h yaw in
  while_true body (i :: rest) h yaw =
    {| issued := (issued o ++ [])%list;
       heading := heading o;
       result := inr Returned |}.
Proof.
  intros Hres. cbn [while_true]. unfold bind.
  destruct (body i h yaw) as [events yaw' r]. cbn in Hres |- *. subst r.
  reflexivity.
Qed.






(** ** Commands that end a loop *)

(** Destructs what the vehicle answers, call by call. *)
Ltac vehicle_cases E :=
  repeat (unfold_monad;
          lazymatch goal with
          | |- context [vehicle E ?h ?e] => destruct (vehicle E h e)
          | |- context [match ?x with JSONDecodeError => _ | _ => _ end] =>
              is_var x; destruct x
          end).

Lemma enhanced_terminal_command E members flag t h yaw :
  dict_lookup "is_drone_command" members = Some flag ->
  truthy flag = true ->
  dict_get "action" JNull members = JStr (enhanced_terminal_name t) ->
  let o := enhanced_command E (JObj members) h yaw in
  stop_precedes_terminal false (issued o) = true
  /\ (accepting E ->
      actions (issued o) = terminal_actions t
      /\ heading o = yaw /\ result o = inr Break).
Proof.
  intros Hflag Htruthy Haction o. subst o.
  unfold enhanced_command, subscript, py_get, land, return_to_launch.
  cbn. rewrite Hflag. cbn. rewrite Htruthy. cbn. rewrite Haction.
  split.
  - destruct t; cbn; vehicle_cases E; reflexivity.
  - intros Hacc. destruct t; run_accepting Hacc; auto.
Qed.

Lemma manual_terminal_command E line t h yaw :
  lower (strip line) = manual_terminal_name t ->
  let o := manual_iteration E line h yaw in
  stop_precedes_terminal false (issued o) = true
  /\ (accepting E ->
      actions (issued o) = terminal_actions t
      /\ heading o = yaw /\ result o = inr Break).
Proof.
  intros Hcmd o. subst o.
  unfold manual_iteration, land, return_to_launch. rewrite Hcmd.
  split.
  - destruct t; cbn; vehicle_cases E; reflexivity.
  - intros Hacc. destruct t; run_accepting Hacc; auto.
Qed.

Lemma basic_terminal_command E text t h yaw :
  basic_terminal (lower text) = Some t ->
  let o := basic_iteration E (Said text) h yaw in
  stop_precedes_terminal false (issued o) = true
  /\ (accepting E ->
      actions (issued o) = terminal_actions t
      /\ heading o = yaw /\ result o = inr Break).
Proof.
  intros Hterm o. subst o.
  unfold basic_iteration, recognize_google, land, return_to_launch.
  unfold_monad.
  unfold basic_terminal in Hterm.
  remember (lower text) as speech eqn:Hs. clear Hs.
  destruct (contains "exit" speech);
    [| destruct (contains "land" speech);
       [| destruct (contains "return" speech || contains "home" speech);
          [| discriminate ] ] ];
    injection Hterm as <-.
  all: split; [vehicle_cases E; reflexivity | intros Hacc; run_accepting Hacc; auto].
Qed.

(** Whatever the input and whatever the vehicle answers, an iteration issues
    no land or return-to-launch call that an [offboard_stop] of the same
    iteration does not precede. *)
Ltac all_paths E :=
  repeat (unfold_monad;
          lazymatch goal with
          | |- context [vehicle E ?h ?e] => destruct (vehicle E h e)
          | |- context [match ?x with JSONDecodeError => _ | _ => _ end] =>
              destruct x
          | |- context [match ?x with JObj _ => _ | _ => _ end] => destruct x
          | |- context [match ?x with Some _ => _ | None => _ end] => destruct x
          | |- context [match ?x with nil => _ | cons _ _ => _ end] => destruct x
          | |- context [if ?c then _ else _] => destruct c
          end).

Lemma manual_iteration_stops_first E line h yaw :
  stop_precedes_terminal false (issued (manual_iteration E line h yaw)) = true.
Proof.
  unfold manual_iteration, land, return_to_launch, debug_telemetry.
  generalize (lower (strip line)). intros cmd.
  all_paths E; reflexivity.
Qed.

Lemma basic_iteration_stops_first E u h yaw :
  stop_precedes_terminal false (issued (basic_iteration E u h yaw)) = true.
Proof.
  unfold basic_iteration, recognize_google, land, return_to_launch.
  destruct u as [e | e | text]; [reflexivity | destruct e; reflexivity |].
  unfold_monad. generalize (lower text). intros speech.
  all_paths E; reflexivity.
Qed.

Lemma enhanced_command_stops_first E command_result h yaw :
  stop_precedes_terminal false (issued (enhanced_command E command_result h yaw))
  = true.
Proof.
  unfold enhanced_command, subscript, py_get, number, land, return_to_launch,
    takeoff.
  all_paths E; reflexivity.
Qed.

Lemma stop_precedes_after_prints stopped prints events :
  actions prints = [] ->
  stop_precedes_terminal stopped (prints ++ events)
  = stop_precedes_terminal stopped events.
Proof.
  induction prints as [| e prints IH]; intros Hprints; [reflexivity |].
  destruct e; try discriminate. cbn in Hprints |- *. now apply IH.
Qed.

Lemma stop_precedes_before_prints stopped events prints :
  actions prints = [] ->
  stop_precedes_terminal stopped events = true ->
  stop_precedes_terminal stopped (events ++ prints) = true.
Proof.
  intros Hprints. revert stopped.
  induction events as [| e events IH]; intros stopped Hevents.
  - cbn [app]. rewrite <- (app_nil_r prints).
    now rewrite stop_precedes_after_prints.
  - destruct e, stopped; cbn in Hevents |- *; try discriminate; now apply IH.
Qed.

Lemma enhanced_iteration_stops_first E input h yaw :
  stop_precedes_terminal false (issued (enhanced_iteration E input h yaw)) = true.
Proof.
  destruct input as [u reply].
  unfold enhanced_iteration, recognize_google.
  destruct u as [e | e | text]; [reflexivity | destruct e; reflexivity |].
  unfold_monad.
  lazymatch goal with
  | |- context [process_speech E reply text ?h0 yaw] =>
      destruct (process_speech_outcome E reply text h0 yaw) as (_ & _ & Ha);
      destruct (process_speech E reply text h0 yaw) as [events y r]
  end.
  cbn [issued] in Ha.
  destruct r as [e | command_result].
  - destruct e;
      cbn [issued app stop_precedes_terminal is_terminal_action negb orb andb];
      rewrite (stop_precedes_after_prints _ events _ Ha); reflexivity.
  - lazymatch goal with
    | |- context [enhanced_command E command_result ?h0 y] =>
        pose proof (enhanced_command_stops_first E command_result h0 y) as Hc;
        destruct (enhanced_command E command_result h0 y) as [events' y' r']
    end.
    cbn [issued] in Hc.
    destruct r' as [e | c]; [destruct e |];
      cbn [issued app stop_precedes_terminal is_terminal_action negb orb andb];
      rewrite <- ?app_assoc;
      rewrite (stop_precedes_after_prints _ events _ Ha);
      try assumption;
      apply stop_precedes_before_prints; auto.
Qed.

Lemma while_true_ends {I} (body : I -> M ctl) i rest h yaw acts yaw' :
  (let o := body i h yaw in
   actions (issued o) = acts /\ heading o = yaw' /\ result o = inr Break) ->
  let o := while_true body (i :: rest) h yaw in
  actions (issued o) = acts /\ result o = inr Returned.
Proof.
  intros (Hacts & _ & Hresult).
  rewrite (while_true_break body i rest h yaw Hresult).
  cbn [issued result]. rewrite app_nil_r. auto.
Qed.

(** C5: in the enhanced, manual and basic loops a land, return-home or exit
    command stops offboard streaming first, then issues the land or
    return-to-launch call, and the loop ends without reading further input.
    Whatever the input and whatever the vehicle answers, no iteration issues
    a land or return-to-launch call before its [offboard_stop]. *)
Theorem stop_precedes_terminal_action E :
  (forall input h yaw,
      stop_precedes_terminal false (issued (enhanced_iteration E input h yaw)) = true)
  /\ (forall line h yaw,
      stop_precedes_terminal false (issued (manual_iteration E line h yaw)) = true)
  /\ (forall u h yaw,
      stop_precedes_terminal false (issued (basic_iteration E u h yaw)) = true)
  /\ (accepting E ->
      forall t rest_enhanced rest_manual rest_basic h yaw,
        (forall text reply members flag,
            interpret E reply text = inr (JObj members) ->
            dict_lookup "is_drone_command" members = Some flag ->
            truthy flag = true ->
            dict_get "action" JNull members = JStr (enhanced_terminal_name t) ->
            let o := while_true (enhanced_iteration E)
                       ((Said text, reply) :: rest_enhanced) h yaw in
            actions (issued o) = terminal_actions t /\ result o = inr Returned)
        /\ (forall line,
            lower (strip line) = manual_terminal_name t ->
            let o := while_true (manual_iteration E) (line :: rest_manual) h yaw in
            actions (issued o) = terminal_actions t /\ result o = inr Returned)
        /\ (forall text,
            basic_terminal (lower text) = Some t ->
            let o := while_true (basic_iteration E) (Said text :: rest_basic) h yaw in
            actions (issued o) = terminal_actions t /\ result o = inr Returned)).
Proof.
  repeat apply conj.
  - apply enhanced_iteration_stops_first.
  - apply manual_iteration_stops_first.
  - apply basic_iteration_stops_first.
  - intros Hacc t rest_enhanced rest_manual rest_basic h yaw. repeat apply conj.
    + intros text reply members flag Hinterpret Hflag Htruthy Haction.
      apply while_true_ends with (yaw' := yaw).
      apply enhanced_iteration_said with (command_result := JObj members);
        [exact Hinterpret |].
      intros h'.
      exact (proj2 (@enhanced_terminal_command E members flag t h' yaw
                      Hflag Htruthy Haction) Hacc).
    + intros line Hcmd.
      apply while_true_ends with (yaw' := yaw).
      exact (proj2 (@manual_terminal_command E line t h yaw Hcmd) Hacc).
    + intros text Hterm.
      apply while_true_ends with (yaw' := yaw).
      exact (proj2 (@basic_terminal_command E text t h yaw Hterm) Hacc).
Qed.

Lemma stop_precedes_terminal_action_witness :
  accepting (runtime willing)
  /\ (let o := run_from_start
                 (while_true (manual_iteration (runtime willing)) ["land"; "f 2"]) in
      actions (issued o) = [offboard_stop; action_land; asyncio_sleep 5]
      /\ result o = inr Returned)
  /\ (let o := run_from_start
                 (while_true (basic_iteration (runtime willing))
                    [Said "return home"; Said "forward"]) in
      actions (issued o) = [offboard_stop; action_return_to_launch; asyncio_sleep 5]
      /\ result o = inr Returned).
Proof.
  assert (Hacc : accepting (runtime willing)) by (intros ? ?; reflexivity).
  pose proof (proj2 (proj2 (proj2 (stop_precedes_terminal_action (runtime willing))))
                Hacc) as Hends.
  split; [exact Hacc | split].
  - exact (proj1 (proj2 (Hends Land [] ["f 2"] [] [] 0)) "land" eq_refl).
  - exact (proj2 (proj2 (Hends ReturnHome [] [] [Said "forward"] [] 0))
             "return home" eq_refl).
Defined.

(** ** Movement in the manual and basic loops *)

Lemma manual_movement E line dir arg f h yaw :
  accepting E ->
  split_ws (lower (strip line)) = [manual_direction_name dir; arg] ->
  startswith "turn_r" (lower (strip line)) = false ->
  startswith "turn_l" (lower (strip line)) = false ->
  py_float E arg = Some f ->
  let distance := py_max 0.1 (py_min 5.0 f) in
  let speed := py_min 2.0 (py_max 0.2 (distance / 1.5)) in
  let o := manual_iteration E line h yaw in
  actions (issued o) =
    [offboard_set_velocity_ned (axis_velocity dir speed yaw);
     asyncio_sleep (distance / speed);
     offboard_set_velocity_ned (zero_velocity yaw)]
  /\ heading o = yaw
  /\ result o = inr Continue.
Proof.
  intros Hacc Hsplit Hr Hl Hfloat distance speed o. subst o speed distance.
  unfold manual_iteration.
  remember (lower (strip line)) as cmd eqn:Hcmd. clear Hcmd.
  assert (Hne : forall word, split_ws word <> [manual_direction_name dir; arg] ->
                             String.eqb cmd word = false).
  { intros word Hword. destruct (String.eqb_spec cmd word) as [-> |]; congruence. }
  rewrite (Hne "exit"), (Hne "land"), (Hne "rth"), (Hne "debug"), (Hne "turn_b")
    by (cbn; discriminate).
  rewrite Hr, Hl, Hsplit. unfold or_raise. rewrite Hfloat.
  destruct dir; run_accepting Hacc; auto.
Qed.

Lemma basic_movement E text dir h yaw :
  accepting E ->
  basic_terminal (lower text) = None ->
  basic_turn (lower text) = None ->
  basic_direction (lower text) = Some dir ->
  let o := basic_iteration E (Said text) h yaw in
  actions (issued o) =
    [offboard_set_velocity_ned (axis_velocity dir 2.0 yaw);
     asyncio_sleep (5.0 / 2.0);
     offboard_set_velocity_ned (zero_velocity yaw)]
  /\ heading o = yaw
  /\ result o = inr Continue.
Proof.
  intros Hacc Hterm Hturn Hdir o. subst o.
  unfold basic_iteration, recognize_google. unfold_monad.
  unfold basic_terminal in Hterm. unfold basic_turn in Hturn.
  unfold basic_direction in Hdir.
  remember (lower text) as speech eqn:Hs. clear Hs.
  destruct (contains "exit" speech); [discriminate |].
  destruct (contains "land" speech); [discriminate |].
  destruct (contains "return" speech || contains "home" speech); [discriminate |].
  destruct (contains "turn right" speech); [discriminate |].
  destruct (contains "turn left" speech); [discriminate |].
  repeat lazymatch type of Hdir with
         | (if ?c then _ else _) = _ => destruct c
         end;
    try discriminate; injection Hdir as <-; run_accepting Hacc; auto.
Qed.

(** Whatever is said, a setpoint of the basic loop that is not a
    zero-velocity one is one of the six of speed 2.0, held for 5.0 / 2.0
    seconds. *)
Lemma basic_setpoints_fixed E u h yaw v :
  accepting E ->
  let o := basic_iteration E u h yaw in
  In (offboard_set_velocity_ned v) (issued o) ->
  (exists yaw', v = zero_velocity yaw')
  \/ (exists dir,
         v = axis_velocity dir 2.0 yaw
         /\ actions (issued o) =
              [offboard_set_velocity_ned v;
               asyncio_sleep (5.0 / 2.0);
               offboard_set_velocity_ned (zero_velocity yaw)]).
Proof.
  intros Hacc o. subst o.
  unfold basic_iteration, recognize_google, land, return_to_launch.
  destruct u as [e | e | text];
    [cbn; intros [H | []]; discriminate
    | destruct e; cbn; intros [H | [H | []]]; discriminate |].
  unfold_monad. generalize (lower text). intros speech.
  repeat (unfold_monad; rewrite ?(Hacc _ _);
          lazymatch goal with
          | |- context [match ?x with Some _ => _ | None => _ end] => destruct x
          | |- context [if ?c then _ else _] => destruct c
          end).
  all: unfold_monad; rewrite ?(Hacc _ _); cbn [issued app In].
  all: intros Hin;
    repeat (destruct Hin as [Hin | Hin]; [try discriminate |]);
    try contradiction.
  all: injection Hin as <-.
  all: first
         [ left; eexists; reflexivity
         | right; exists Forward; split; reflexivity
         | right; exists Backward; split; reflexivity
         | right; exists Right; split; reflexivity
         | right; exists Left; split; reflexivity
         | right; exists Up; split; reflexivity
         | right; exists Down; split; reflexivity ].
Qed.

(** C9: in the basic voice loop a movement command, whatever else the
    utterance says, issues the setpoint of speed 2.0 along its axis and holds
    it for 5.0 / 2.0 = 2.5 seconds, that is 5.0 metres; no other non-zero
    velocity is ever issued by the loop, so a spoken number can only reach a
    rotation angle. *)
Theorem basic_movement_fixed E :
  accepting E ->
  (forall text dir h yaw,
      basic_terminal (lower text) = None ->
      basic_turn (lower text) = None ->
      basic_direction (lower text) = Some dir ->
      let o := basic_iteration E (Said text) h yaw in
      actions (issued o) =
        [offboard_set_velocity_ned (axis_velocity dir 2.0 yaw);
         asyncio_sleep (5.0 / 2.0);
         offboard_set_velocity_ned (zero_velocity yaw)]
      /\ heading o = yaw
      /\ result o = inr Continue)
  /\ 5.0 / 2.0 == 2.5
  /\ 2.0 * (5.0 / 2.0) == 5.0
  /\ (forall u h yaw v,
      let o := basic_iteration E u h yaw in
      In (offboard_set_velocity_ned v) (issued o) ->
      (exists yaw', v = zero_velocity yaw')
      \/ (exists dir,
             v = axis_velocity dir 2.0 yaw
             /\ actions (issued o) =
                  [offboard_set_velocity_ned v;
                   asyncio_sleep (5.0 / 2.0);
                   offboard_set_velocity_ned (zero_velocity yaw)])).
Proof.
  intros Hacc. repeat apply conj.
  - intros text dir h yaw Hterm Hturn Hdir.
    now apply basic_movement.
  - reflexivity.
  - reflexivity.
  - intros u h yaw v. now apply basic_setpoints_fixed.
Qed.

Lemma basic_movement_fixed_witness :
  accepting (runtime willing)
  /\ actions (issued (basic_iteration (runtime willing)
                        (Said "go Forward 10 meters") [] 30)) =
       [offboard_set_velocity_ned (velocity_ned_yaw 2.0 0.0 0.0 30);
        asyncio_sleep (5.0 / 2.0);
        offboard_set_velocity_ned (velocity_ned_yaw 0.0 0.0 0.0 30)].
Proof.
  assert (Hacc : accepting (runtime willing)) by (intros ? ?; reflexivity).
  split; [exact Hacc |].
  exact (proj1 (proj1 (basic_movement_fixed Hacc)
                  "go Forward 10 meters" Forward [] 30 eq_refl eq_refl eq_refl)).
Defined.

(** ** The manual loop's half turn *)

Lemma manual_turn_b_run E line h yaw :
  accepting E ->
  lower (strip line) = "turn_b" ->
  let o := manual_iteration E line h yaw in
  actions (issued o) =
    [offboard_set_velocity_ned (zero_velocity (yaw + 180));
     asyncio_sleep (180 / 30)]
  /\ heading o = yaw + 180
  /\ result o = inr Continue.
Proof.
  intros Hacc Hcmd. unfold manual_iteration. rewrite Hcmd.
  run_accepting Hacc. repeat split; reflexivity.
Qed.

(** C10: in the manual loop the bare command [turn_b] adds exactly 180 to
    [yaw_heading], issues one zero-velocity setpoint at the new heading, and
    holds for 180 / 30 = 6 seconds; the loop goes on. *)
Theorem manual_turn_b_half_turn E line h yaw :
  accepting E ->
  lower (strip line) = "turn_b" ->
  let o := manual_iteration E line h yaw in
  actions (issued o) =
    [offboard_set_velocity_ned (velocity_ned_yaw 0.0 0.0 0.0 (yaw + 180));
     asyncio_sleep (180 / 30)]
  /\ heading o = yaw + 180
  /\ result o = inr Continue
  /\ 180 / 30 == 6.
Proof.
  intros Hacc Hcmd o.
  destruct (@manual_turn_b_run E line h yaw Hacc Hcmd) as (Ha & Hh & Hr).
  fold o in Ha, Hh, Hr. repeat split; assumption || reflexivity.
Qed.

Lemma manual_turn_b_half_turn_witness :
  accepting (runtime willing)
  /\ lower (strip " Turn_B ") = "turn_b"
  /\ heading (manual_iteration (runtime willing) " Turn_B " [] 90) = 90 + 180.
Proof.
  assert (Hacc : accepting (runtime willing)) by (intros ? ?; reflexivity).
  assert (Hcmd : lower (strip " Turn_B ") = "turn_b") by reflexivity.
  split; [exact Hacc | split; [exact Hcmd |]].
  exact (proj1 (proj2 (manual_turn_b_half_turn " Turn_B " [] 90 Hacc Hcmd))).
Defined.

(** ** Stopping after a maneuver *)

Lemma last_setpoint_actions events :
  last_setpoint (actions events) = last_setpoint events.
Proof.
  unfold last_setpoint. generalize (@None VelocityNedYaw).
  induction events as [| e events IH]; intros acc; [reflexivity |].
  destruct e; cbn; apply IH.
Qed.




(** ** The scripted flight *)

(** C8: when the vehicle refuses to start offboard mode after arming and
    take-off, the scripted flight reports the failure, issues the disarm
    call and returns; the position setpoint issued before the request is the
    only one, and the square is not flown. *)
Theorem offboard_rejection_disarms E connection_states healths :
  (forall h call,
      call <> offboard_start -> call <> action_disarm -> vehicle E h call = None) ->
  (forall h, vehicle E h offboard_start = Some OffboardError) ->
  let o := run_from_start (OffboardControl.run E connection_states healths) in
  actions (issued o) =
    [system_connect "udp://:14540"; action_arm; action_takeoff; asyncio_sleep 5;
     offboard_set_position_ned (position_ned_yaw 0.0 0.0 0.0 0.0);
     offboard_start; action_disarm]
  /\ (exists before,
         issued o =
           (before ++ [offboard_start;
                       print "Starting offboard mode failed with error";
                       action_disarm])%list)
  /\ ((forall h, vehicle E h action_disarm = None) -> result o = inr tt).
Proof.
  intros Haccepts Hrefuses o. subst o.
  unfold run_from_start, OffboardControl.run.
  destruct (existsb (fun is_connected : bool => is_connected) connection_states);
    destruct (existsb (fun h : bool * bool => fst h && snd h) healths);
    repeat (unfold_monad;
            lazymatch goal with
            | |- context [vehicle E ?h offboard_start] => rewrite (Hrefuses h)
            | |- context [vehicle E ?h action_disarm] =>
                destruct (vehicle E h action_disarm) eqn:?
            | |- context [vehicle E ?h ?call] =>
                rewrite (Haccepts h call) by discriminate
            end);
    unfold_monad; cbn [issued result actions filter app];
    (split; [reflexivity | split; [| intros Hdisarm; congruence]]);
    lazymatch goal with
    | |- exists before, ?l = _ => exists (firstn (List.length l - 3)%nat l); reflexivity
    end.
Qed.

Lemma offboard_rejection_disarms_witness :
  let o := run_from_start
             (OffboardControl.run (runtime no_offboard) [false; true] [(true, true)]) in
  actions (issued o) =
    [system_connect "udp://:14540"; action_arm; action_takeoff; asyncio_sleep 5;
     offboard_set_position_ned (position_ned_yaw 0.0 0.0 0.0 0.0);
     offboard_start; action_disarm]
  /\ result o = inr tt.
Proof.
  pose proof (@offboard_rejection_disarms (runtime no_offboard)
                [false; true] [(true, true)]) as H.
  cbv zeta in H |- *.
  destruct H as (Hactions & _ & Hresult).
  - intros h call Hstart Hdisarm. destruct call; try reflexivity. now elim Hstart.
  - intros h. reflexivity.
  - split; [exact Hactions | apply Hresult; intros h; reflexivity].
Defined.

(** * Further properties *)

Import MoreProps.

(** ** takeoff *)

(** When the vehicle refuses to start offboard mode, [takeoff] reports it
    and returns: the zero-velocity setpoint and the request are all it
    issues, and no climb is commanded. *)
Theorem takeoff_refused_start E alt h yaw :
  accepts_setpoints E ->
  refuses_start E ->
  let o := takeoff E alt h yaw in
  actions (issued o) =
    [offboard_set_velocity_ned (zero_velocity 0.0); offboard_start]
  /\ result o = inr tt
  /\ heading o = yaw.
Proof.
  intros Hset Hstart o. subst o. unfold takeoff. unfold_monad.
  rewrite (Hset _ _).
  lazymatch goal with
  | |- context [vehicle E ?h0 offboard_start] =>
      destruct (Hstart h0) as [e He]; rewrite He
  end.
  cbn. auto.
Qed.

Lemma takeoff_refused_start_witness :
  let o := run_from_start (takeoff (runtime no_offboard) (JNum 2.0)) in
  actions (issued o) =
    [offboard_set_velocity_ned (zero_velocity 0.0); offboard_start]
  /\ result o = inr tt.
Proof.
  pose proof (@takeoff_refused_start (runtime no_offboard) (JNum 2.0) [] 0) as H.
  cbv zeta in H. destruct H as (Ha & Hr & _).
  - intros h v. reflexivity.
  - intros h. exists OffboardError. reflexivity.
  - split; assumption.
Defined.

(** ** Iterations of the enhanced loop *)

(** An iteration on recognised speech, whatever [process_speech] does: an
    exception from it is reported; a value it returns goes to
    [enhanced_command], whose exception, if any, is reported too. *)
Lemma enhanced_iteration_cases E text reply h yaw :
  let o := enhanced_iteration E (Said text, reply) h yaw in
  match interpret E reply text with
  | inl _ =>
      actions (issued o) = [] /\ heading o = yaw /\ result o = inr Continue
  | inr command_result =>
      exists h',
        let oc := enhanced_command E command_result h' yaw in
        actions (issued o) = actions (issued oc)
        /\ heading o = heading oc
        /\ result o = inr (match result oc with
                           | inl _ => Continue
                           | inr c => c
                           end)
  end.
Proof.
  unfold enhanced_iteration, recognize_google. unfold_monad.
  lazymatch goal with
  | |- context [process_speech E reply text ?h0 yaw] =>
      destruct (process_speech_outcome E reply text h0 yaw) as (Hr & Hh & Ha);
      destruct (process_speech E reply text h0 yaw) as [events y r]
  end.
  cbn [result heading issued] in Hr, Hh, Ha. subst y. rewrite <- Hr. clear Hr.
  destruct r as [e | command_result].
  - destruct e; cbn [issued heading result]; rewrite !actions_app, Ha; cbn; auto.
  - lazymatch goal with
    | |- context [enhanced_command E command_result ?h0 yaw] =>
        exists h0; destruct (enhanced_command E command_result h0 yaw)
                     as [events' y' r']
    end.
    destruct r' as [e | c]; [destruct e |];
      cbn [issued heading result]; rewrite !actions_app, Ha; cbn;
      rewrite ?app_nil_r; auto.
Qed.

Lemma enhanced_takeoff_run E members flag params h yaw :
  accepting E ->
  dict_lookup "is_drone_command" members = Some flag ->
  truthy flag = true ->
  dict_get "action" JNull members = JStr "takeoff" ->
  dict_get "parameters" (JObj []) members = JObj params ->
  let o := enhanced_command E (JObj members) h yaw in
  match as_number (dict_get "distance" (JNum 2.0) params) with
  | Some a =>
      actions (issued o) =
        [offboard_stop;
         offboard_set_velocity_ned (zero_velocity 0.0); offboard_start;
         offboard_set_velocity_ned ascent; asyncio_sleep (a / py_abs (- 1.0));
         offboard_set_velocity_ned (zero_velocity 0.0);
         offboard_start]
      /\ heading o = yaw /\ result o = inr Continue
  | None =>
      actions (issued o) =
        [offboard_stop;
         offboard_set_velocity_ned (zero_velocity 0.0); offboard_start;
         offboard_set_velocity_ned ascent]
      /\ heading o = yaw /\ result o = inl TypeError
  end.
Proof.
  intros Hacc Hflag Htruthy Haction Hparams o. subst o.
  unfold enhanced_command, subscript, py_get, number, takeoff.
  cbn. rewrite Hflag. cbn. rewrite Htruthy. cbn.
  rewrite Haction, Hparams. cbn.
  destruct (as_number (dict_get "distance" (JNum 2.0) params));
    run_accepting Hacc; auto.
Qed.



(** A takeoff command whose distance is not a number ([null], a string): the
    climb setpoint has been issued when the hold time is computed, the
    [TypeError] is reported by the loop, and the climb at 1 m/s is left as
    the last setpoint, offboard mode being active. *)
Theorem enhanced_takeoff_without_number E text reply members flag params h yaw :
  accepting E ->
  interpret E reply text = inr (JObj members) ->
  dict_lookup "is_drone_command" members = Some flag ->
  truthy flag = true ->
  dict_get "action" JNull members = JStr "takeoff" ->
  dict_get "parameters" (JObj []) members = JObj params ->
  as_number (dict_get "distance" (JNum 2.0) params) = None ->
  let o := enhanced_iteration E (Said text, reply) h yaw in
  actions (issued o) =
    [offboard_stop;
     offboard_set_velocity_ned (velocity_ned_yaw 0.0 0.0 0.0 0.0); offboard_start;
     offboard_set_velocity_ned (velocity_ned_yaw 0.0 0.0 (- 1.0) 0.0)]
  /\ last_setpoint (issued o) = Some (velocity_ned_yaw 0.0 0.0 (- 1.0) 0.0)
  /\ heading o = yaw
  /\ result o = inr Continue.
Proof.
  intros Hacc Hinterpret Hflag Htruthy Haction Hparams Ha o.
  pose proof (enhanced_iteration_cases E text reply h yaw) as Hcases.
  rewrite Hinterpret in Hcases. destruct Hcases as (h' & Hact & Hhead & Hres).
  pose proof (@enhanced_takeoff_run E members flag params h' yaw
                Hacc Hflag Htruthy Haction Hparams) as Hrun.
  cbv zeta in Hrun. rewrite Ha in Hrun. destruct Hrun as (Hact' & Hhead' & Hres').
  fold o in Hact, Hhead, Hres.
  rewrite <- last_setpoint_actions, Hact, Hhead, Hres, Hact', Hhead', Hres'.
  repeat split.
Qed.

Lemma enhanced_takeoff_without_number_witness :
  let o := run_from_start
             (enhanced_iteration (runtime willing)
                (Said "take off", LlmResponse (Some takeoff_null_text))) in
  last_setpoint (issued o) = Some (velocity_ned_yaw 0.0 0.0 (- 1.0) 0.0)
  /\ result o = inr Continue.
Proof.
  pose proof (@enhanced_takeoff_without_number (runtime willing) "take off"
                (LlmResponse (Some takeoff_null_text))
                [("is_drone_command", JBool true); ("action", JStr "takeoff");
                 ("parameters", JObj [("distance", JNull)])]
                (JBool true) [("distance", JNull)] [] 0) as H.
  cbv zeta in H. destruct H as (_ & Hlast & _ & Hres).
  - intros ? ?; reflexivity.
  - reflexivity.
  - reflexivity.
  - reflexivity.
  - reflexivity.
  - reflexivity.
  - reflexivity.
  - split; assumption.
Defined.

(** ** What the enhanced loop ignores *)

Ltac split_existsb H :=
  cbn [is_one_of existsb enhanced_actions] in H;
  repeat (apply orb_false_elim in H;
          let H1 := fresh "Hname" in destruct H as [H1 H]).

Lemma enhanced_command_ignored E command_result h yaw :
  ignored (inr command_result) ->
  let o := enhanced_command E command_result h yaw in
  actions (issued o) = []
  /\ heading o = yaw
  /\ (result o = inr Continue \/ exists e, result o = inl e).
Proof.
  intros Hignored o. subst o.
  unfold enhanced_command, subscript, py_get.
  destruct command_result as [| b | q | s | items | members];
    try (cbn; eauto; fail).
  cbn [ignored] in Hignored. unfold_monad.
  destruct (dict_lookup "is_drone_command" members) as [flag |];
    [| cbn; eauto].
  destruct Hignored as [Hfalse | Hunknown].
  - rewrite Hfalse. cbn. auto.
  - destruct (truthy flag); [| cbn; auto].
    split_existsb Hunknown.
    unfold is_one_of. cbn [negb existsb].
    repeat lazymatch goal with
           | Hn : is_str ?a ?name = false |- context [is_str ?a ?name] =>
               rewrite Hn
           end.
    cbn. auto.
Qed.

(** Whatever the vehicle would answer, the enhanced loop calls it for
    nothing when the interpretation fails, returns something that is not a
    record, says the speech is no command, or names an action the loop does
    not know (such as the prompt's "arm", "disarm" or "hover"); the heading
    is kept and the loop listens again. *)
Theorem enhanced_ignored_input E text reply h yaw :
  ignored (interpret E reply text) ->
  let o := enhanced_iteration E (Said text, reply) h yaw in
  actions (issued o) = [] /\ heading o = yaw /\ result o = inr Continue.
Proof.
  intros Hignored o.
  pose proof (enhanced_iteration_cases E text reply h yaw) as Hcases.
  fold o in Hcases.
  destruct (interpret E reply text) as [e | command_result]; [exact Hcases |].
  destruct Hcases as (h' & Hact & Hhead & Hres).
  destruct (@enhanced_command_ignored E command_result h' yaw Hignored)
    as (Hact' & Hhead' & Hres').
  rewrite Hact, Hhead, Hres, Hact', Hhead'.
  repeat split. destruct Hres' as [-> | [e ->]]; reflexivity.
Qed.

Lemma enhanced_ignored_input_witness :
  let reply :=
    "{" ++ quoted "is_drone_command" ++ ": true, "
        ++ quoted "action" ++ ": " ++ quoted "hover" ++ "}" in
  let o := run_from_start
             (enhanced_iteration (runtime no_offboard)
                (Said "please hover", LlmResponse (Some reply))) in
  actions (issued o) = [] /\ heading o = 0 /\ result o = inr Continue.
Proof.
  intros reply.
  apply (@enhanced_ignored_input (runtime no_offboard) "please hover"
           (LlmResponse (Some reply)) [] 0).
  right. reflexivity.
Defined.

Lemma enhanced_command_lacks_number E members flag h yaw :
  dict_lookup "is_drone_command" members = Some flag ->
  truthy flag = true ->
  (exists dir,
      dict_get "action" JNull members = JStr (direction_name dir)
      /\ lacks_number members "distance" (JNum 2.0))
  \/ (exists t,
         dict_get "action" JNull members = JStr (turn_name t)
         /\ lacks_number members "angle" (JNum 90)) ->
  let o := enhanced_command E (JObj members) h yaw in
  actions (issued o) = []
  /\ heading o = yaw
  /\ exists e, result o = inl e.
Proof.
  intros Hflag Htruthy Hcommand o. subst o.
  unfold enhanced_command, subscript, py_get, number.
  cbn. rewrite Hflag. cbn. rewrite Htruthy. cbn.
  unfold lacks_number in Hcommand.
  destruct Hcommand as [(dir & Haction & Hnum) | (t & Haction & Hnum)];
    rewrite Haction;
    [destruct dir | destruct t]; cbn;
    destruct (dict_get "parameters" (JObj []) members);
    cbn; rewrite ?Hnum; cbn; eauto.
Qed.

(** A movement or rotation command whose number cannot be read (parameters
    that are not a dict, a [null] or a string where the distance or angle
    should be) moves nothing: no call reaches the vehicle, the heading is
    not changed, the error is reported and the loop listens again. *)
Theorem enhanced_command_without_number E text reply members flag h yaw :
  interpret E reply text = inr (JObj members) ->
  dict_lookup "is_drone_command" members = Some flag ->
  truthy flag = true ->
  (exists dir,
      dict_get "action" JNull members = JStr (direction_name dir)
      /\ lacks_number members "distance" (JNum 2.0))
  \/ (exists t,
         dict_get "action" JNull members = JStr (turn_name t)
         /\ lacks_number members "angle" (JNum 90)) ->
  let o := enhanced_iteration E (Said text, reply) h yaw in
  actions (issued o) = [] /\ heading o = yaw /\ result o = inr Continue.
Proof.
  intros Hinterpret Hflag Htruthy Hcommand o.
  pose proof (enhanced_iteration_cases E text reply h yaw) as Hcases.
  rewrite Hinterpret in Hcases. destruct Hcases as (h' & Hact & Hhead & Hres).
  destruct (@enhanced_command_lacks_number E members flag h' yaw
              Hflag Htruthy Hcommand) as (Hact' & Hhead' & e & Hres').
  fold o in Hact, Hhead, Hres.
  rewrite Hact, Hhead, Hres, Hact', Hhead', Hres'. repeat split.
Qed.

Lemma enhanced_command_without_number_witness :
  let reply :=
    "{" ++ quoted "is_drone_command" ++ ": true, "
        ++ quoted "action" ++ ": " ++ quoted "forward" ++ ", "
        ++ quoted "parameters" ++ ": {" ++ quoted "distance" ++ ": null}}" in
  let o := run_from_start
             (enhanced_iteration (runtime willing)
                (Said "go forward", LlmResponse (Some reply))) in
  actions (issued o) = [] /\ heading o = 0 /\ result o = inr Continue.
Proof.
  intros reply.
  apply (@enhanced_command_without_number (runtime willing) "go forward"
           (LlmResponse (Some reply))
           [("is_drone_command", JBool true); ("action", JStr "forward");
            ("parameters", JObj [("distance", JNull)])]
           (JBool true) [] 0).
  - reflexivity.
  - reflexivity.
  - reflexivity.
  - left. exists Forward. split; reflexivity.
Defined.

(** ** What ends a loop, and what a loop never calls *)

Lemma all_accepted_app E events : forall history events',
  all_accepted E history events ->
  all_accepted E (history ++ events) events' ->
  all_accepted E history (events ++ events').
Proof.
  induction events as [| e events IH]; intros history events' H H'.
  - rewrite app_nil_r in H'. exact H'.
  - cbn [app all_accepted] in H |- *. destruct H as (He & H).
    split; [exact He |]. apply IH; [exact H |].
    rewrite <- app_assoc. exact H'.
Qed.

Lemma all_accepted_quiet E events : forall history,
  actions events = [] -> all_accepted E history events.
Proof.
  induction events as [| e events IH]; intros history H; [exact I |].
  destruct e; cbn [actions filter] in H; try discriminate.
  cbn [all_accepted]. split; [exact I |]. now apply IH.
Qed.

(** Every path of a computation, with the answer of the vehicle to each
    call kept. *)
Ltac all_paths_answers E :=
  repeat (unfold_monad;
          lazymatch goal with
          | |- context [vehicle E ?h ?e] =>
              let H := fresh "Hanswer" in destruct (vehicle E h e) eqn:H
          | |- context [match ?x with JSONDecodeError => _ | _ => _ end] =>
              destruct x
          | |- context [match ?x with JObj _ => _ | _ => _ end] => destruct x
          | |- context [match ?x with Some _ => _ | None => _ end] => destruct x
          | |- context [match ?x with nil => _ | cons _ _ => _ end] => destruct x
          | |- context [if ?c then _ else _] => destruct c
          end).

Ltac close_break :=
  intros Hbreak; try discriminate;
  first [ exists Exit; split; [reflexivity |]
        | exists Land; split; [reflexivity |]
        | exists ReturnHome; split; [reflexivity |] ];
  (split; [reflexivity |]);
  cbn [all_accepted]; rewrite <- ?app_assoc in *; cbn [app] in *;
  repeat split; assumption.

Lemma enhanced_command_break E command_result h yaw :
  let o := enhanced_command E command_result h yaw in
  result o = inr Break ->
  exists t,
    actions (issued o) = terminal_actions t
    /\ heading o = yaw
    /\ all_accepted E h (issued o).
Proof.
  unfold enhanced_command, subscript, py_get, number, land, return_to_launch,
    takeoff.
  all_paths_answers E; cbn [result issued heading actions filter app];
    close_break.
Qed.

Lemma manual_iteration_break E line h yaw :
  let o := manual_iteration E line h yaw in
  result o = inr Break ->
  exists t,
    actions (issued o) = terminal_actions t
    /\ heading o = yaw
    /\ all_accepted E h (issued o).
Proof.
  unfold manual_iteration, land, return_to_launch, debug_telemetry.
  generalize (lower (strip line)). intros cmd.
  all_paths_answers E; cbn [result issued heading actions filter app];
    close_break.
Qed.

Lemma basic_iteration_break E u h yaw :
  let o := basic_iteration E u h yaw in
  result o = inr Break ->
  exists t,
    actions (issued o) = terminal_actions t
    /\ heading o = yaw
    /\ all_accepted E h (issued o).
Proof.
  unfold basic_iteration, recognize_google, land, return_to_launch.
  destruct u as [e | e | text];
    [cbn; discriminate | destruct e; cbn; discriminate |].
  unfold_monad. generalize (lower text). intros speech.
  all_paths_answers E; cbn [result issued heading actions filter app];
    close_break.
Qed.

Lemma enhanced_iteration_break E input h yaw :
  let o := enhanced_iteration E input h yaw in
  result o = inr Break ->
  exists t,
    actions (issued o) = terminal_actions t
    /\ heading o = yaw
    /\ all_accepted E h (issued o).
Proof.
  destruct input as [[e | e | text] reply].
  - cbn. discriminate.
  - destruct e; cbn; discriminate.
  - unfold enhanced_iteration, recognize_google. unfold_monad.
    lazymatch goal with
    | |- context [process_speech E reply text ?h0 yaw] =>
        destruct (process_speech_outcome E reply text h0 yaw) as (_ & Hh & Ha);
        destruct (process_speech E reply text h0 yaw) as [events y r]
    end.
    cbn [heading issued] in Hh, Ha. subst y.
    destruct r as [e | command_result]; [destruct e; cbn; discriminate |].
    lazymatch goal with
    | |- context [enhanced_command E command_result ?h0 yaw] =>
        pose proof (enhanced_command_break E command_result h0 yaw) as Hcommand;
        destruct (enhanced_command E command_result h0 yaw) as [events' y' r']
    end.
    cbv zeta in Hcommand. cbn [result issued heading] in Hcommand.
    destruct r' as [e | c]; [destruct e; cbn; discriminate |].
    cbn [result issued heading]. intros Hbreak.
    injection Hbreak as ->.
    destruct (Hcommand eq_refl) as (t & Hcalls & Hheading & Haccepted).
    exists t. split; [| split; [exact Hheading |]].
    + rewrite !actions_app, Ha, Hcalls. reflexivity.
    + rewrite !app_assoc. apply all_accepted_app.
      * apply all_accepted_quiet. rewrite !actions_app, Ha. reflexivity.
      * repeat rewrite <- app_assoc in Haccepted. repeat rewrite <- app_assoc.
        exact Haccepted.
Qed.

(** Whatever the input and whatever the vehicle answers, an iteration of
    the enhanced, manual or basic loop ends the loop only when the vehicle
    has accepted the offboard stop and, for land and return home, the
    terminal call after it: the calls of an iteration that breaks are
    exactly those of an exit, a land or a return home, every call the
    iteration made was accepted, and the heading is as it was. *)
Theorem loop_breaks_only_after_terminal_calls E :
  (forall input h yaw,
      let o := enhanced_iteration E input h yaw in
      result o = inr Break ->
      exists t,
        actions (issued o) = terminal_actions t
        /\ heading o = yaw
        /\ all_accepted E h (issued o))
  /\ (forall line h yaw,
      let o := manual_iteration E line h yaw in
      result o = inr Break ->
      exists t,
        actions (issued o) = terminal_actions t
        /\ heading o = yaw
        /\ all_accepted E h (issued o))
  /\ (forall u h yaw,
      let o := basic_iteration E u h yaw in
      result o = inr Break ->
      exists t,
        actions (issued o) = terminal_actions t
        /\ heading o = yaw
        /\ all_accepted E h (issued o)).
Proof.
  repeat apply conj.
  - intros input h yaw. apply enhanced_iteration_break.
  - intros line h yaw. apply manual_iteration_break.
  - intros u h yaw. apply basic_iteration_break.
Qed.

Lemma loop_breaks_only_after_terminal_calls_witness :
  let o := manual_iteration (runtime willing) "rth" [] 0 in
  actions (issued o) = terminal_actions ReturnHome
  /\ all_accepted (runtime willing) [] (issued o).
Proof.
  destruct (proj1 (proj2 (loop_breaks_only_after_terminal_calls (runtime willing)))
              "rth" [] 0 eq_refl) as (t & Ht & _ & Haccepted).
  split; [reflexivity | exact Haccepted].
Defined.

Lemma enhanced_command_calls E command_result h yaw :
  forallb loop_call (issued (enhanced_command E command_result h yaw)) = true.
Proof.
  unfold enhanced_command, subscript, py_get, number, land, return_to_launch,
    takeoff.
  all_paths E; reflexivity.
Qed.

Lemma forallb_actions (f : event -> bool) events :
  forallb f events = true -> forallb f (actions events) = true.
Proof.
  induction events as [| e events IH]; [reflexivity |].
  cbn [forallb]. intros H. apply andb_true_iff in H. destruct H as [He Hrest].
  destruct e; cbn [actions filter forallb]; rewrite ?He; cbn; now apply IH.
Qed.

(** Whatever the input and whatever the vehicle answers, the command loops
    never connect, arm, disarm, call the vehicle's own takeoff or issue a
    position setpoint: a spoken takeoff climbs by velocity setpoints, and
    nothing in a loop arms or disarms the vehicle. *)
Theorem loops_never_arm_or_position E :
  (forall input h yaw,
      forallb loop_call (actions (issued (enhanced_iteration E input h yaw))) = true)
  /\ (forall line h yaw,
      forallb loop_call (issued (manual_iteration E line h yaw)) = true)
  /\ (forall u h yaw,
      forallb loop_call (issued (basic_iteration E u h yaw)) = true).
Proof.
  repeat apply conj.
  - intros [u reply] h yaw.
    destruct u as [e | e | text]; [reflexivity | destruct e; reflexivity |].
    pose proof (enhanced_iteration_cases E text reply h yaw) as Hcases.
    cbv zeta in Hcases.
    destruct (interpret E reply text) as [e | command_result].
    + destruct Hcases as (-> & _). reflexivity.
    + destruct Hcases as (h' & -> & _).
      apply forallb_actions, enhanced_command_calls.
  - intros line h yaw.
    unfold manual_iteration, land, return_to_launch, debug_telemetry.
    generalize (lower (strip line)). intros cmd.
    all_paths E; reflexivity.
  - intros u h yaw.
    unfold basic_iteration, recognize_google, land, return_to_launch.
    destruct u as [e | e | text]; [reflexivity | destruct e; reflexivity |].
    unfold_monad. generalize (lower text). intros speech.
    all_paths E; reflexivity.
Qed.

(** ** Exceptions and the loops *)

Lemma bind_say_result {A} line (k : unit -> M A) h yaw :
  result (bind (say line) k h yaw) = result (k tt (h ++ [print line])%list yaw).
Proof.
  unfold bind, say, emit.
  destruct (k tt (h ++ [print line])%list yaw). reflexivity.
Qed.

Lemma try_except_returns {A} (m : M A) (handler : exn -> M A) h yaw :
  (forall e h' yaw', exists a, result (handler e h' yaw') = inr a) ->
  exists a, result (try_except m handler h yaw) = inr a.
Proof.
  intros Hhandler. unfold try_except.
  destruct (m h yaw) as [events yaw' [e | a]].
  - destruct (Hhandler e (h ++ events)%list yaw') as [a Ha].
    destruct (handler e (h ++ events)%list yaw'). cbn in Ha |- *. eauto.
  - cbn. eauto.
Qed.

(** Once audio is captured, an iteration of a voice loop never raises,
    whatever the recogniser, the language model and the vehicle do: every
    exception is reported inside the loop.  An exception of
    [recognizer.listen] itself, the listen timeout included, is raised
    before the [try] is entered and leaves the loop function, with no call
    to the vehicle. *)
Theorem voice_iteration_exceptions E :
  (forall u reply h yaw,
      (forall e, u <> NoAudio e) ->
      exists c, result (enhanced_iteration E (u, reply) h yaw) = inr c)
  /\ (forall u h yaw,
      (forall e, u <> NoAudio e) ->
      exists c, result (basic_iteration E u h yaw) = inr c)
  /\ (forall e reply h yaw,
      let o := enhanced_iteration E (NoAudio e, reply) h yaw in
      result o = inl e /\ actions (issued o) = [] /\ heading o = yaw)
  /\ (forall e h yaw,
      let o := basic_iteration E (NoAudio e) h yaw in
      result o = inl e /\ actions (issued o) = [] /\ heading o = yaw).
Proof.
  repeat apply conj.
  - intros u reply h yaw Haudio. unfold enhanced_iteration.
    rewrite bind_say_result.
    destruct u as [e | e | text]; [now elim (Haudio e) | |];
      apply try_except_returns; intros e' h' yaw';
      destruct e'; cbn; eauto.
  - intros u h yaw Haudio. unfold basic_iteration.
    rewrite bind_say_result.
    destruct u as [e | e | text]; [now elim (Haudio e) | |];
      apply try_except_returns; intros e' h' yaw';
      destruct e'; cbn; eauto.
  - intros e reply h yaw. cbn. auto.
  - intros e h yaw. cbn. auto.
Qed.

Lemma voice_iteration_exceptions_witness :
  exists c,
    result (enhanced_iteration (runtime no_offboard)
              (Said "take off", LlmRaises JSONDecodeError) [] 0) = inr c.
Proof.
  apply (proj1 (voice_iteration_exceptions (runtime no_offboard))).
  intros e. discriminate.
Defined.

Ltac split_eqb H :=
  cbn [existsb manual_unprotected] in H;
  repeat (apply orb_false_elim in H;
          let H1 := fresh "Hcmd" in destruct H as [H1 H]).

(** In the manual loop only [exit], [land], [rth], [debug] and [turn_b] run
    outside a [try]: for every other line, whatever the vehicle answers,
    the iteration returns and the loop goes on, so a call the vehicle
    refuses can end the manual loop only from those five commands. *)
Theorem manual_exceptions_only_unprotected E line h yaw :
  existsb (String.eqb (lower (strip line))) manual_unprotected = false ->
  result (manual_iteration E line h yaw) = inr Continue.
Proof.
  intros Hcmd. unfold manual_iteration.
  revert Hcmd. generalize (lower (strip line)). intros cmd Hcmd.
  split_eqb Hcmd.
  repeat lazymatch goal with
         | Hn : String.eqb cmd ?name = false |- context [String.eqb cmd ?name] =>
             rewrite Hn
         end.
  all_paths E; reflexivity.
Qed.

Lemma manual_exceptions_only_unprotected_witness :
  result (manual_iteration (runtime no_offboard) "f 2" [] 0) = inr Continue
  /\ result (manual_iteration
               {| vehicle := fun _ _ => Some (OtherError "link lost");
                  json_loads := loads_model;
                  py_float := float_model;
                  py_int := int_model |} "turn_r 90" [] 0) = inr Continue.
Proof.
  split; apply manual_exceptions_only_unprotected; reflexivity.
Defined.

(** ** The heading *)

Lemma enhanced_command_keeps_heading E command_result h yaw :
  match command_result with
  | JObj members =>
      is_one_of (dict_get "action" JNull members) ["turn_right"; "turn_left"]
      = false
  | _ => True
  end ->
  heading (enhanced_command E command_result h yaw) = yaw.
Proof.
  intros Hturn.
  unfold enhanced_command, subscript, py_get, number, land, return_to_launch,
    takeoff.
  destruct command_result as [| b | q | s | items | members];
    try reflexivity.
  unfold_monad. rewrite Hturn.
  all_paths E; reflexivity.
Qed.

(** Whatever the vehicle answers, [yaw_heading] is changed by rotation
    commands only: an iteration of the enhanced loop on a record whose
    action is not [turn_right] or [turn_left], of the manual loop on a line
    that is no [turn_r], [turn_l] or [turn_b] command, and of the basic loop
    on speech without "turn right" and "turn left" keeps the heading. *)
Theorem heading_changes_only_by_rotation E :
  (forall text reply h yaw,
      (forall members,
          interpret E reply text = inr (JObj members) ->
          is_one_of (dict_get "action" JNull members) ["turn_right"; "turn_left"]
          = false) ->
      heading (enhanced_iteration E (Said text, reply) h yaw) = yaw)
  /\ (forall line h yaw,
      startswith "turn_r" (lower (strip line)) = false ->
      startswith "turn_l" (lower (strip line)) = false ->
      String.eqb (lower (strip line)) "turn_b" = false ->
      heading (manual_iteration E line h yaw) = yaw)
  /\ (forall text h yaw,
      basic_turn (lower text) = None ->
      heading (basic_iteration E (Said text) h yaw) = yaw).
Proof.
  repeat apply conj.
  - intros text reply h yaw Hturn.
    pose proof (enhanced_iteration_cases E text reply h yaw) as Hcases.
    cbv zeta in Hcases.
    destruct (interpret E reply text) as [e | command_result].
    + now destruct Hcases as (_ & -> & _).
    + destruct Hcases as (h' & _ & -> & _).
      apply enhanced_command_keeps_heading.
      destruct command_result; try exact I. now apply Hturn.
  - intros line h yaw. unfold manual_iteration, land, return_to_launch,
      debug_telemetry.
    generalize (lower (strip line)). intros cmd Hr Hl Hb.
    rewrite Hr, Hl, Hb.
    all_paths E; reflexivity.
  - intros text h yaw. unfold basic_iteration, recognize_google, land,
      return_to_launch, basic_turn.
    unfold_monad. generalize (lower text). intros speech Hturn.
    destruct (contains "turn right" speech); [discriminate |].
    destruct (contains "turn left" speech); [discriminate |].
    all_paths E; reflexivity.
Qed.

Lemma heading_changes_only_by_rotation_witness :
  heading (manual_iteration (runtime willing) "u 3" [] 135) = 135
  /\ heading (basic_iteration (runtime willing) (Said "go left") [] 135) = 135.
Proof.
  pose proof (heading_changes_only_by_rotation (runtime willing))
    as (_ & Hmanual & Hbasic).
  split.
  - exact (Hmanual "u 3" [] 135 eq_refl eq_refl eq_refl).
  - exact (Hbasic "go left" [] 135 eq_refl).
Defined.




(** ** Distances, speeds and holds *)

Lemma manual_speed_bounds f :
  let distance := py_max 0.1 (py_min 5.0 f) in
  let speed := py_min 2.0 (py_max 0.2 (distance / 1.5)) in
  let hold := distance / speed in
  0.1 <= distance <= 5.0
  /\ 0.2 <= speed <= 2.0
  /\ 0.5 <= hold <= 2.5.
Proof.
  intros distance speed hold.
  assert (Hd : 0.1 <= distance <= 5.0).
  { subst distance. unfold py_max, py_min. cases_Qle; split; lra. }
  assert (Hx : distance / 1.5 == distance * (2 # 3)) by field.
  subst hold speed. revert Hd Hx. generalize distance. clear distance.
  intros d Hd. generalize (d / 1.5). intros x Hx.
  unfold py_min, py_max. cases_Qle.
  - exfalso. lra.
  - assert (Hh : d / 0.2 == d * 5) by field.
    repeat split; lra.
  - assert (Hh : d / 2.0 == d * (1 # 2)) by field.
    repeat split; lra.
  - assert (Hne : ~ x == 0) by lra.
    assert (Hh : d / x == 1.5) by (rewrite Hx; field; lra).
    repeat split; lra.
Qed.

(** A movement typed in the manual loop is clamped: whatever number is
    typed, the distance flown lies between 0.1 and 5.0 metres, the speed
    between 0.2 and 2.0 m/s and the hold between 0.5 and 2.5 seconds. *)
Theorem manual_movement_clamped E line dir arg f h yaw :
  accepting E ->
  split_ws (lower (strip line)) = [manual_direction_name dir; arg] ->
  startswith "turn_r" (lower (strip line)) = false ->
  startswith "turn_l" (lower (strip line)) = false ->
  py_float E arg = Some f ->
  let distance := py_max 0.1 (py_min 5.0 f) in
  let speed := py_min 2.0 (py_max 0.2 (distance / 1.5)) in
  let hold := distance / speed in
  actions (issued (manual_iteration E line h yaw)) =
    [offboard_set_velocity_ned (axis_velocity dir speed yaw);
     asyncio_sleep hold;
     offboard_set_velocity_ned (velocity_ned_yaw 0.0 0.0 0.0 yaw)]
  /\ 0.1 <= distance <= 5.0
  /\ 0.2 <= speed <= 2.0
  /\ 0.5 <= hold <= 2.5.
Proof.
  intros Hacc Hsplit Hr Hl Hfloat distance speed hold.
  split.
  - exact (proj1 (@manual_movement E line dir arg f h yaw
                    Hacc Hsplit Hr Hl Hfloat)).
  - apply manual_speed_bounds.
Qed.

Lemma manual_movement_clamped_witness :
  let distance := py_max 0.1 (py_min 5.0 1000) in
  let speed := py_min 2.0 (py_max 0.2 (distance / 1.5)) in
  actions (issued (manual_iteration (runtime willing) "f 1000" [] 0)) =
    [offboard_set_velocity_ned (velocity_ned_yaw speed 0.0 0.0 0);
     asyncio_sleep (distance / speed);
     offboard_set_velocity_ned (velocity_ned_yaw 0.0 0.0 0.0 0)]
  /\ distance == 5.0 /\ speed == 2.0 /\ distance / speed == 2.5.
Proof.
  intros distance speed.
  split; [| repeat split; reflexivity].
  refine (proj1 (@manual_movement_clamped (runtime willing) "f 1000" Forward
                   "1000" 1000 [] 0 _ _ _ _ _)).
  - intros ? ?; reflexivity.
  - reflexivity.
  - reflexivity.
  - reflexivity.
  - reflexivity.
Defined.

(** The enhanced loop does not clamp the distance it is given, here a
    number in the range of a double.  Between 0.75 and 4.5 metres the speed
    is [d / 1.5] and every movement is held 1.5 seconds; beyond 4.5 metres
    the speed stays 3.0 and the hold grows as [d / 3]; below 0.75 metres the
    speed stays 0.5 and the hold is [2 d], which is no hold at all for a
    distance of zero or less. *)
Theorem enhanced_hold_regimes E text reply members flag params dir d h yaw :
  accepting E ->
  interpret E reply text = inr (JObj members) ->
  dict_lookup "is_drone_command" members = Some flag ->
  truthy flag = true ->
  dict_get "action" JNull members = JStr (direction_name dir) ->
  dict_get "parameters" (JObj []) members = JObj params ->
  as_number (dict_get "distance" (JNum 2.0) params) = Some d ->
  in_double_range d ->
  let speed := py_min 3.0 (py_max 0.5 (d / 1.5)) in
  let hold := d / speed in
  actions (issued (enhanced_iteration E (Said text, reply) h yaw)) =
    [offboard_set_velocity_ned (axis_velocity dir speed yaw);
     asyncio_sleep hold;
     offboard_set_velocity_ned (velocity_ned_yaw 0.0 0.0 0.0 yaw)]
  /\ (0.75 <= d <= 4.5 -> speed == d / 1.5 /\ hold == 1.5)
  /\ (4.5 <= d -> speed == 3.0 /\ hold == d / 3.0)
  /\ (d <= 0.75 -> speed == 0.5 /\ hold == 2 * d)
  /\ (d <= 0 -> hold <= 0).
Proof.
  intros Hacc Hinterpret Hflag Htruthy Haction Hparams Hd _ speed hold.
  split.
  - exact (proj1 (@enhanced_movement_iteration E text reply members flag params
                    dir d h yaw Hacc Hinterpret Hflag Htruthy Haction Hparams Hd)).
  - clear. subst hold speed.
    assert (Hx : d / 1.5 == d * (2 # 3)) by field.
    assert (H3 : d / 3.0 == d * (1 # 3)) by field.
    revert Hx. generalize (d / 1.5). intros x Hx.
    unfold py_min, py_max. cases_Qle.
    + exfalso. lra.
    + assert (Hh : d / 0.5 == d * 2) by field.
      repeat split; intros; lra.
    + assert (Hh : d / 3.0 == d * (1 # 3)) by field.
      repeat split; intros; lra.
    + assert (Hne : ~ x == 0) by lra.
      assert (Hh : d / x == 1.5) by (rewrite Hx; field; lra).
      repeat split; intros; lra.
Qed.

Lemma enhanced_hold_regimes_witness :
  let speed := py_min 3.0 (py_max 0.5 (3.0 / 1.5)) in
  speed == 3.0 / 1.5 /\ 3.0 / speed == 1.5.
Proof.
  intros speed.
  pose proof (@enhanced_hold_regimes (runtime willing) "move forward 3 meters"
                (LlmResponse (Some forward_3_text))
                [("is_drone_command", JBool true); ("action", JStr "forward");
                 ("parameters", JObj [("distance", JNum 3.0)])]
                (JBool true) [("distance", JNum 3.0)] Forward 3.0 [] 0) as H.
  cbv zeta in H. destruct H as (_ & Hmid & _).
  - intros ? ?; reflexivity.
  - reflexivity.
  - reflexivity.
  - reflexivity.
  - reflexivity.
  - reflexivity.
  - reflexivity.
  - vm_compute. discriminate.
  - apply Hmid; split; discriminate.
Defined.

(** ** Lines the manual loop cannot read *)

(** A manual line that is none of the bare commands and cannot be read
    (not exactly two tokens, a second token that is no number, or a first
    token that is neither a turn command nor a direction letter) reaches
    the vehicle with no call, whatever the vehicle would answer: the
    heading is kept and the loop asks for the next line. *)
Theorem manual_unreadable_line E line h yaw :
  existsb (String.eqb (lower (strip line))) manual_unprotected = false ->
  manual_argument E (lower (strip line)) = None
  \/ (exists word f,
         manual_argument E (lower (strip line)) = Some (word, f)
         /\ startswith "turn_r" (lower (strip line)) = false
         /\ startswith "turn_l" (lower (strip line)) = false
         /\ existsb (String.eqb word) manual_directions = false) ->
  let o := manual_iteration E line h yaw in
  actions (issued o) = [] /\ heading o = yaw /\ result o = inr Continue.
Proof.
  intros Hcmd Hunreadable o. subst o. unfold manual_iteration.
  revert Hcmd Hunreadable. generalize (lower (strip line)). intros cmd Hcmd.
  split_eqb Hcmd.
  repeat lazymatch goal with
         | Hn : String.eqb cmd ?name = false |- context [String.eqb cmd ?name] =>
             rewrite Hn
         end.
  unfold manual_argument.
  intros [Hnone | (word & f & Hsome & Hr & Hl & Hdir)].
  - destruct (split_ws cmd) as [| w [| arg [| more rest]]];
      try (all_paths E; cbn; auto; fail).
    destruct (py_float E arg); [discriminate |].
    all_paths E; cbn; auto.
  - rewrite Hr, Hl.
    destruct (split_ws cmd) as [| w [| arg [| more rest]]]; try discriminate.
    destruct (py_float E arg) as [f' |]; [| discriminate].
    injection Hsome as -> ->.
    cbn [existsb manual_directions] in Hdir.
    repeat (apply orb_false_elim in Hdir;
            let H1 := fresh "Hletter" in destruct Hdir as [H1 Hdir]).
    unfold or_raise. unfold_monad.
    rewrite Hletter, Hletter0, Hletter1, Hletter2, Hletter3, Hletter4.
    cbn. auto.
Qed.

Lemma manual_unreadable_line_witness :
  let o := manual_iteration (runtime no_offboard) "forward 3" [] 45 in
  actions (issued o) = [] /\ heading o = 45 /\ result o = inr Continue.
Proof.
  apply (@manual_unreadable_line (runtime no_offboard) "forward 3" [] 45).
  - reflexivity.
  - right. exists "forward", 3. repeat split; reflexivity.
Defined.

(** ** The basic loop's closing setpoint *)

(** Every iteration of the basic loop that hears speech and does not end the
    loop closes with the zero-velocity setpoint at the heading: after a
    movement, after a rotation, after a rotation whose angle could not be
    read and after a command it does not recognise alike. *)
Theorem basic_always_stops E text h yaw :
  accepting E ->
  basic_terminal (lower text) = None ->
  let o := basic_iteration E (Said text) h yaw in
  (exists before,
      actions (issued o) =
        (before ++ [offboard_set_velocity_ned (zero_velocity (heading o))])%list)
  /\ last_setpoint (issued o) = Some (zero_velocity (heading o))
  /\ result o = inr Continue.
Proof.
  intros Hacc Hterm o. subst o.
  unfold basic_iteration, recognize_google. unfold_monad.
  unfold basic_terminal in Hterm. revert Hterm.
  generalize (lower text). intros speech Hterm.
  destruct (contains "exit" speech); [discriminate |].
  destruct (contains "land" speech); [discriminate |].
  destruct (contains "return" speech || contains "home" speech); [discriminate |].
  repeat (unfold_monad; rewrite ?(Hacc _ _);
          lazymatch goal with
          | |- context [match ?x with Some _ => _ | None => _ end] => destruct x
          | |- context [if ?c then _ else _] => destruct c
          end);
    unfold_monad; rewrite ?(Hacc _ _);
    cbn [issued heading result actions filter app];
    (split; [| split; reflexivity]);
    lazymatch goal with
    | |- exists before, ?l = _ => exists (removelast l); reflexivity
    end.
Qed.

Lemma basic_always_stops_witness :
  let o := run_from_start
             (basic_iteration (runtime willing) (Said "do a barrel roll")) in
  last_setpoint (issued o) = Some (zero_velocity 0)
  /\ result o = inr Continue.
Proof.
  refine (proj2 (@basic_always_stops (runtime willing) "do a barrel roll" [] 0 _ _)).
  - intros ? ?; reflexivity.
  - reflexivity.
Defined.

(** In the basic loop a rotation needs its angle spoken as an integer right
    after "right" or "left": when that text is no integer (nothing at all,
    or "90 degrees") the heading is not changed, nothing is held, and only
    the closing zero-velocity setpoint is issued.  There is no default
    angle. *)
Theorem basic_rotation_without_angle E text t h yaw :
  accepting E ->
  basic_terminal (lower text) = None ->
  basic_turn (lower text) = Some t ->
  py_int E (strip (split_last
                     (match t with TurnRight => "right" | TurnLeft => "left" end)
                     (lower text))) = None ->
  let o := basic_iteration E (Said text) h yaw in
  actions (issued o) = [offboard_set_velocity_ned (zero_velocity yaw)]
  /\ heading o = yaw
  /\ result o = inr Continue.
Proof.
  intros Hacc Hterm Hturn Hint o. subst o.
  unfold basic_iteration, recognize_google. unfold_monad.
  unfold basic_terminal in Hterm. unfold basic_turn in Hturn.
  remember (lower text) as speech eqn:Hs. clear Hs.
  destruct (contains "exit" speech); [discriminate |].
  destruct (contains "land" speech); [discriminate |].
  destruct (contains "return" speech || contains "home" speech); [discriminate |].
  destruct (contains "turn right" speech).
  - injection Hturn as <-. unfold or_raise. rewrite Hint.
    run_accepting Hacc. auto.
  - destruct (contains "turn left" speech); [| discriminate].
    injection Hturn as <-. unfold or_raise. rewrite Hint.
    run_accepting Hacc. auto.
Qed.

Lemma basic_rotation_without_angle_witness :
  let o := run_from_start
             (basic_iteration (runtime willing) (Said "turn right 90 degrees")) in
  actions (issued o) = [offboard_set_velocity_ned (zero_velocity 0)]
  /\ heading o = 0
  /\ result o = inr Continue.
Proof.
  refine (@basic_rotation_without_angle (runtime willing) "turn right 90 degrees"
            TurnRight [] 0 _ _ _ _).
  - intros ? ?; reflexivity.
  - reflexivity.
  - reflexivity.
  - reflexivity.
Defined.

(** ** The fallback matcher *)

(** The fallback matcher invents nothing and reads no number: the action it
    answers has one of its own keywords in the lowered text, a sideways
    movement is answered only when "turn" is absent, and the record is
    always one of the fourteen fixed records, so a distance or an angle in
    the text never reaches the record. *)
Theorem fallback_sound speech_text action :
  record_action (_fallback_processing speech_text) = JStr action ->
  any_in (fallback_keywords action) (lower speech_text) = true
  /\ (action = "left" \/ action = "right" ->
      contains "turn" (lower speech_text) = false)
  /\ In (_fallback_processing speech_text)
        (not_a_command :: map snd fallback_checks).
Proof.
  unfold _fallback_processing. generalize (lower speech_text). intros speech.
  repeat lazymatch goal with
         | |- context [if ?c then _ else _] =>
             let Hc := fresh "Hcheck" in
             destruct c eqn:Hc;
             [ cbn [record_action dict_get dict_lookup String.eqb Ascii.eqb
                      Bool.eqb];
               intros Haction; injection Haction as <-;
               cbn [fallback_keywords String.eqb Ascii.eqb Bool.eqb];
               try (apply andb_true_iff in Hc; destruct Hc as [Hc Hno];
                    apply negb_true_iff in Hno);
               rewrite ?any_in_one in *;
               (split; [assumption | split;
                  [ intros [Heq | Heq]; first [assumption | discriminate]
                  | cbn; tauto ]])
             | ]
         end.
  cbn. discriminate.
Qed.

Lemma fallback_sound_witness :
  any_in ["home"; "return"; "rth"] (lower "Fly NORTH 30 meters") = true
  /\ _fallback_processing "Fly NORTH 30 meters" = command_record "return_home" [].
Proof.
  destruct (@fallback_sound "Fly NORTH 30 meters" "return_home" eq_refl)
    as (Hkey & _ & _).
  split; [exact Hkey | reflexivity].
Defined.

Lemma fallback_record_cases speech_text :
  In (_fallback_processing speech_text) (not_a_command :: map snd fallback_checks).
Proof.
  unfold _fallback_processing.
  repeat lazymatch goal with
         | |- context [if ?c then _ else _] => destruct c; [cbn; tauto |]
         end.
  cbn. tauto.
Qed.

Lemma fallback_movement_record speech_text dir :
  record_action (_fallback_processing speech_text) = JStr (direction_name dir) ->
  _fallback_processing speech_text
  = command_record (direction_name dir) [("distance", JNum 2.0)].
Proof.
  pose proof (fallback_record_cases speech_text) as Hin.
  cbn [map snd fallback_checks In] in Hin.
  intros Haction.
  repeat (destruct Hin as [Hin | Hin];
          [ rewrite <- Hin in Haction |- *; destruct dir;
            first [discriminate | reflexivity] |]).
  destruct Hin.
Qed.

Lemma fallback_rotation_record speech_text t :
  record_action (_fallback_processing speech_text) = JStr (turn_name t) ->
  _fallback_processing speech_text
  = command_record (turn_name t) [("angle", JNum 90)].
Proof.
  pose proof (fallback_record_cases speech_text) as Hin.
  cbn [map snd fallback_checks In] in Hin.
  intros Haction.
  repeat (destruct Hin as [Hin | Hin];
          [ rewrite <- Hin in Haction |- *; destruct t;
            first [discriminate | reflexivity] |]).
  destruct Hin.
Qed.

(** When the interpretation falls back on the keyword matcher (the remote
    call fails or its response does not decode), every movement the
    enhanced loop makes is 2.0 metres, at speed 2.0 / 1.5 held 1.5 seconds,
    and every rotation is 90 degrees held 3 seconds, whatever distance or
    angle was spoken. *)
Theorem fallback_moves_by_defaults E text reply h yaw :
  accepting E ->
  interpret E reply text = inr (_fallback_processing text) ->
  let o := enhanced_iteration E (Said text, reply) h yaw in
  let speed := py_min 3.0 (py_max 0.5 (2.0 / 1.5)) in
  (forall dir,
      record_action (_fallback_processing text) = JStr (direction_name dir) ->
      actions (issued o) =
        [offboard_set_velocity_ned (axis_velocity dir speed yaw);
         asyncio_sleep (2.0 / speed);
         offboard_set_velocity_ned (velocity_ned_yaw 0.0 0.0 0.0 yaw)]
      /\ heading o = yaw)
  /\ (forall t,
      record_action (_fallback_processing text) = JStr (turn_name t) ->
      actions (issued o) =
        [offboard_set_velocity_ned (velocity_ned_yaw 0.0 0.0 0.0 (turned t yaw 90));
         asyncio_sleep (90 / 30)]
      /\ heading o = turned t yaw 90)
  /\ speed == 4 # 3
  /\ 2.0 / speed == 1.5
  /\ 90 / 30 == 3.
Proof.
  intros Hacc Hinterpret o speed. repeat apply conj; try reflexivity.
  - intros dir Haction.
    pose proof (fallback_movement_record _ _ Haction) as Hrecord.
    rewrite Hrecord in Hinterpret.
    destruct (@enhanced_movement_iteration E text reply _ (JBool true)
                [("distance", JNum 2.0)] dir 2.0 h yaw Hacc Hinterpret
                eq_refl eq_refl eq_refl eq_refl eq_refl) as (Ha & Hh & _).
    split; assumption.
  - intros t Haction.
    pose proof (fallback_rotation_record _ _ Haction) as Hrecord.
    rewrite Hrecord in Hinterpret.
    destruct (@enhanced_rotation_iteration E text reply _ (JBool true)
                [("angle", JNum 90)] t 90 h yaw Hacc Hinterpret
                eq_refl eq_refl eq_refl eq_refl eq_refl) as (Ha & Hh & _).
    split; assumption.
Qed.

Lemma fallback_moves_by_defaults_witness :
  let o := run_from_start
             (enhanced_iteration (runtime willing)
                (Said "move forward 10 meters", LlmRaises (OtherError "quota"))) in
  let speed := py_min 3.0 (py_max 0.5 (2.0 / 1.5)) in
  actions (issued o) =
    [offboard_set_velocity_ned (velocity_ned_yaw speed 0.0 0.0 0);
     asyncio_sleep (2.0 / speed);
     offboard_set_velocity_ned (velocity_ned_yaw 0.0 0.0 0.0 0)].
Proof.
  pose proof (@fallback_moves_by_defaults (runtime willing)
                "move forward 10 meters" (LlmRaises (OtherError "quota")) [] 0) as H.
  cbv zeta in H. destruct H as (Hmove & _).
  - intros ? ?; reflexivity.
  - reflexivity.
  - exact (proj1 (Hmove Forward eq_refl)).
Defined.

(** ** The scripted flight, whatever the vehicle answers *)

(** The scripted flight skips no step and stops at the first call the
    vehicle refuses: its calls are always an initial part of the full
    flight (connect, arm, take off, start offboard, the five corners of the
    square at 5 metres, land), or those of the rejected start followed by
    disarm.  It returns normally only after the whole flight or after the
    disarm, and it never stops offboard streaming, not even before
    landing. *)
Theorem run_stops_at_first_refusal E connection_states healths :
  let o := run_from_start (OffboardControl.run E connection_states healths) in
  ((exists rest, full_flight = (actions (issued o) ++ rest)%list)
   \/ actions (issued o) = rejected_flight)
  /\ (result o = inr tt ->
      actions (issued o) = full_flight \/ actions (issued o) = rejected_flight)
  /\ ~ In offboard_stop (actions (issued o)).
Proof.
  unfold run_from_start, OffboardControl.run.
  destruct (existsb (fun is_connected : bool => is_connected) connection_states);
    destruct (existsb (fun h : bool * bool => fst h && snd h) healths);
    all_paths E;
    cbn;
    (split; [| split]);
    try (intros Hresult; first [discriminate | left; reflexivity | right; reflexivity]);
    try (intros Hin; cbn in Hin;
         repeat (destruct Hin as [Hin | Hin]; [discriminate |]); exact Hin);
    first
      [ right; reflexivity
      | left; unfold full_flight; eexists; reflexivity ].
Qed.

(** When the offboard start fails with anything but [OffboardError], the
    scripted flight raises that exception at once: the vehicle has been
    armed and has taken off, and neither disarm nor land is issued. *)
Theorem run_other_start_failure E connection_states healths e :
  e <> OffboardError ->
  (forall h call,
      call <> offboard_start -> call <> action_disarm -> vehicle E h call = None) ->
  (forall h, vehicle E h offboard_start = Some e) ->
  let o := run_from_start (OffboardControl.run E connection_states healths) in
  result o = inl e
  /\ actions (issued o) =
       [system_connect "udp://:14540"; action_arm; action_takeoff; asyncio_sleep 5;
        offboard_set_position_ned (position_ned_yaw 0.0 0.0 0.0 0.0);
        offboard_start].
Proof.
  intros He Haccepts Hrefuses o. subst o.
  unfold run_from_start, OffboardControl.run.
  destruct (existsb (fun is_connected : bool => is_connected) connection_states);
    destruct (existsb (fun h : bool * bool => fst h && snd h) healths);
    repeat (unfold_monad;
            lazymatch goal with
            | |- context [vehicle E ?h offboard_start] => rewrite (Hrefuses h)
            | |- context [vehicle E ?h ?call] =>
                rewrite (Haccepts h call) by discriminate
            end);
    unfold_monad; destruct e; try (now elim He); cbn; auto.
Qed.

Lemma run_other_start_failure_witness :
  let lost := {| vehicle := fun _ call =>
                              match call with
                              | offboard_start => Some (OtherError "grpc")
                              | _ => None
                              end;
                 json_loads := loads_model;
                 py_float := float_model;
                 py_int := int_model |} in
  let o := run_from_start (OffboardControl.run lost [true] [(true, true)]) in
  result o = inl (OtherError "grpc")
  /\ ~ In action_disarm (actions (issued o)).
Proof.
  intros lost.
  pose proof (@run_other_start_failure lost [true] [(true, true)]
                (OtherError "grpc")) as H.
  cbv zeta in H. destruct H as (Hresult & Hactions).
  - discriminate.
  - intros h call Hstart Hdisarm. destruct call; try reflexivity. now elim Hstart.
  - intros h. reflexivity.
  - split; [exact Hresult |].
    rewrite Hactions. intros Hin. cbn in Hin.
    repeat (destruct Hin as [Hin | Hin]; [discriminate |]). exact Hin.
Defined.

(** ** Loops whose offboard start is refused *)

(** When the vehicle takes the zero setpoint but refuses to start offboard
    mode, each of the three command loops reports it and returns to the
    menu at once: no line or utterance is read, and the only calls made are
    the zero setpoint and the refused start. *)
Theorem loops_return_on_refused_start E lines inputs utterances h yaw :
  accepts_setpoints E ->
  refuses_start E ->
  start_refused_session (manual_control E lines h yaw)
  /\ start_refused_session (enhanced_voice_control E inputs h yaw)
  /\ start_refused_session (voice_control_basic E utterances h yaw).
Proof.
  intros Hacc Href.
  unfold start_refused_session, manual_control, enhanced_voice_control,
    voice_control_basic.
  repeat split;
    repeat (unfold_monad; rewrite ?(Hacc _ _);
            try lazymatch goal with
                | |- context [vehicle E ?history offboard_start] =>
                    destruct (Href history) as [e He]; rewrite He; clear e He
                end);
    reflexivity.
Qed.

Lemma loops_return_on_refused_start_witness :
  start_refused_session
    (voice_control_basic (runtime no_offboard) [Said "forward"] [] 0).
Proof.
  refine (proj2 (proj2 (@loops_return_on_refused_start (runtime no_offboard)
                          ["forward"] [] [Said "forward"] [] 0 _ _))).
  - intros history v. reflexivity.
  - intros history. exists OffboardError. reflexivity.
Defined.

(** ** The menu *)

Lemma bind_outcome {A B} (m : M A) (k : A -> M B) h yaw :
  bind m k h yaw =
  match result (m h yaw) with
  | inl e =>
      {| issued := issued (m h yaw); heading := heading (m h yaw);
         result := inl e |}
  | inr a =>
      let o := k a (h ++ issued (m h yaw))%list (heading (m h yaw)) in
      {| issued := (issued (m h yaw) ++ issued o)%list; heading := heading o;
         result := result o |}
  end.
Proof.
  unfold bind. destruct (m h yaw) as [events yaw' [e | a]]; cbn; [reflexivity |].
  destruct (k a (h ++ events)%list yaw'). reflexivity.
Qed.

(** A menu entry that runs [m] and goes back to the menu, under the menu's
    [except Exception]. *)
Lemma menu_entry_flow {A} (m : M A) (f : A -> menu_flow) h yaw :
  (forall a, f a <> MenuBreak) ->
  let o := try_except (bind m (fun a => ret (f a)))
             (fun _ => bind (say "[x] Error") (fun _ => ret MenuContinue))
             h yaw in
  (exists flow, result o = inr flow) /\ result o <> inr MenuBreak.
Proof.
  intros Hf. unfold try_except, bind, ret, say, emit.
  destruct (m h yaw) as [events yaw' [e | a]]; cbn.
  - split; [eauto | discriminate].
  - split; [eauto |]. intros H. injection H as H. now apply (Hf a).
Qed.

Lemma after_loop_not_break s : after_loop s <> MenuBreak.
Proof. destruct s; discriminate. Qed.

(** One pass through the menu never raises, and it leaves the menu loop
    exactly on choice 6, where the only call is the offboard stop. *)
Lemma menu_iteration_flow E llm_processor input h yaw :
  let o := menu_iteration E llm_processor input h yaw in
  (exists flow, result o = inr flow)
  /\ (result o = inr MenuBreak <-> choice input = "6")
  /\ (choice input = "6" -> actions (issued o) = [offboard_stop]).
Proof.
  cbv zeta. split; [| split].
  - unfold menu_iteration.
    destruct llm_processor; rewrite !bind_say_result;
      apply try_except_returns; intros e h' yaw'; cbn; eauto.
  - unfold menu_iteration.
    destruct (String.eqb (choice input) "6") eqn:Hexit.
    + apply String.eqb_eq in Hexit. rewrite Hexit.
      destruct llm_processor; rewrite !bind_say_result; cbn [String.eqb Ascii.eqb Bool.eqb];
        unfold_monad; destruct (vehicle E _ offboard_stop); cbn; tauto.
    + apply String.eqb_neq in Hexit.
      split; [| intros Hchoice; contradiction].
      intros Hbreak. exfalso. revert Hbreak.
      destruct llm_processor; rewrite !bind_say_result;
        repeat lazymatch goal with
               | |- context [if String.eqb (choice input) ?c then _ else _] =>
                   let H := fresh "Hc" in
                   destruct (String.eqb (choice input) c) eqn:H;
                   [| try (apply String.eqb_neq in H) ]
               end;
        try (match goal with
             | H : String.eqb (choice input) "6" = true |- _ =>
                 apply String.eqb_eq in H; contradiction
             end);
        lazymatch goal with
        | |- result (try_except (bind ?m (fun s => ret (@?f s))) _ ?h' ?yaw') = _
             -> False =>
            refine (proj2 (menu_entry_flow m f h' yaw' _));
            intros a; first [discriminate | apply after_loop_not_break]
        end.
  - intros Hchoice. unfold menu_iteration. rewrite Hchoice.
    destruct llm_processor; cbn [String.eqb Ascii.eqb Bool.eqb];
      unfold_monad; destruct (vehicle E _ offboard_stop); reflexivity.
Qed.

Lemma menu_loop_returns E llm_processor inputs :
  forall h yaw, exists s, result (menu_loop E llm_processor inputs h yaw) = inr s.
Proof.
  induction inputs as [| input rest IH]; intros h yaw; cbn [menu_loop].
  - cbn. eauto.
  - rewrite bind_outcome.
    destruct (menu_iteration_flow E llm_processor input h yaw)
      as ((flow & Hflow) & _ & _).
    rewrite Hflow. cbn. destruct flow; cbn; eauto.
Qed.

Lemma menu_loop_returned E llm_processor inputs :
  forall h yaw,
    let o := menu_loop E llm_processor inputs h yaw in
    result o = inr Returned ->
    exists before input after,
      inputs = (before ++ input :: after)%list
      /\ Forall (fun i => choice i <> "6") before
      /\ choice input = "6"
      /\ exists calls, actions (issued o) = (calls ++ [offboard_stop])%list.
Proof.
  induction inputs as [| input rest IH]; intros h yaw; cbn [menu_loop].
  - cbn. discriminate.
  - cbv zeta. rewrite bind_outcome.
    destruct (menu_iteration_flow E llm_processor input h yaw)
      as ((flow & Hflow) & Hbreak & Hexit).
    rewrite Hflow. cbn. destruct flow; cbn.
    + intros Hreturned.
      destruct (IH _ _ Hreturned)
        as (before & input' & after & -> & Hbefore & Hchoice & calls & Hcalls).
      exists (input :: before), input', after.
      split; [reflexivity |]. split; [| split; [exact Hchoice |]].
      * constructor; [| exact Hbefore].
        intros Hsix. apply Hbreak in Hsix. rewrite Hflow in Hsix. discriminate.
      * exists (actions (issued (menu_iteration E llm_processor input h yaw))
                ++ calls)%list.
        rewrite actions_app, Hcalls. apply app_assoc.
    + intros _. exists [], input, rest.
      assert (Hsix : choice input = "6") by (apply Hbreak; exact Hflow).
      split; [reflexivity |]. split; [constructor |]. split; [exact Hsix |].
      exists []. rewrite app_nil_r. now apply Hexit.
    + discriminate.
Qed.

Lemma make_llm_processor_quiet setup h yaw :
  let o := make_llm_processor setup h yaw in
  (exists llm_processor, result o = inr llm_processor)
  /\ actions (issued o) = [].
Proof.
  unfold make_llm_processor.
  repeat (unfold_monad;
          lazymatch goal with
          | |- context [match ?x with Some _ => _ | None => _ end] => destruct x
          | |- context [if ?c then _ else _] => destruct c
          end);
    cbn; eauto.
Qed.

(** Once the choice has been read, a pass through the menu never raises,
    whatever the vehicle, the recogniser and the interpreter do while the
    choice is carried out: the menu reports the exception and shows its
    options again.  The pass leaves the menu loop exactly when the choice
    is 6, whether or not the vehicle accepts the offboard stop. *)
Theorem menu_pass_never_raises E llm_processor input h yaw :
  let o := menu_iteration E llm_processor input h yaw in
  (exists flow, result o = inr flow)
  /\ (result o = inr MenuBreak <-> choice input = "6").
Proof.
  destruct (menu_iteration_flow E llm_processor input h yaw)
    as (Hreturns & Hbreak & _).
  split; assumption.
Qed.

(** The menu ends the session only on choice 6: when it returns, the inputs
    hold a first pass whose choice is 6, and the last call made to the
    vehicle is the offboard stop of that pass. *)
Theorem menu_ends_only_on_exit E setup connection_states inputs :
  let o := run_from_start (menu E setup connection_states inputs) in
  result o = inr Returned ->
  exists before input after,
    inputs = (before ++ input :: after)%list
    /\ Forall (fun i => choice i <> "6") before
    /\ choice input = "6"
    /\ exists calls, actions (issued o) = (calls ++ [offboard_stop])%list.
Proof.
  unfold run_from_start, menu. cbv zeta.
  destruct (make_llm_processor_quiet setup [] 0) as ((llm & Hllm) & Hquiet).
  rewrite bind_outcome, Hllm. cbv zeta.
  set (h1 := ([] ++ issued (make_llm_processor setup [] 0))%list).
  set (yaw1 := heading (make_llm_processor setup [] 0)).
  rewrite bind_outcome.
  destruct (result (connect E connection_states h1 yaw1)) as [e | []];
    [cbn; discriminate |].
  cbv zeta. cbn [result issued]. rewrite bind_outcome.
  set (h2 := (h1 ++ issued (connect E connection_states h1 yaw1))%list).
  set (yaw2 := heading (connect E connection_states h1 yaw1)).
  pose proof (menu_loop_returned E llm inputs h2 yaw2) as Hloop. cbv zeta in Hloop.
  destruct (menu_loop_returns E llm inputs h2 yaw2) as (s & Hs).
  rewrite Hs in Hloop |- *. cbv zeta.
  destruct s; unfold_monad; cbn [result issued heading]; [| discriminate].
  intros _.
  destruct (Hloop eq_refl)
    as (before & input & after & Hinputs & Hbefore & Hchoice & calls & Hloopcalls).
  exists before, input, after. repeat (split; [assumption |]).
  exists (actions (issued (connect E connection_states h1 yaw1)) ++ calls)%list.
  rewrite !actions_app, Hquiet, Hloopcalls. cbn [actions filter app].
  rewrite app_nil_r. apply app_assoc.
Qed.

Lemma menu_ends_only_on_exit_witness :
  let setup := {| api_key_from_env := None; typed_api_key := EmptyString;
                  processor_init := None |} in
  let pass c := {| choice := c; manual_lines := []; enhanced_inputs := [];
                   basic_inputs := [] |} in
  exists before input after,
    [pass "5"; pass "6"; pass "1"] = (before ++ input :: after)%list
    /\ Forall (fun i => choice i <> "6") before
    /\ choice input = "6"
    /\ exists calls,
         actions (issued (run_from_start
                            (menu (runtime willing) setup [inr true]
                               [pass "5"; pass "6"; pass "1"]))) =
         (calls ++ [offboard_stop])%list.
Proof.
  intros setup pass.
  apply (@menu_ends_only_on_exit (runtime willing) setup [inr true]
           [pass "5"; pass "6"; pass "1"]).
  reflexivity.
Defined.

(** What [recognizer.listen] raises in the voice loop entered from the menu
    (a listen timeout on silence, a microphone failure) is caught by the
    menu, not by the loop: the loop is left, the menu prints its error line
    and shows its options again, and no offboard stop has been sent after
    the start. *)
Theorem menu_catches_listen_failure E llm_processor input e h yaw :
  accepting E ->
  choice input = "7" ->
  first_listen_fails llm_processor input e ->
  let o := menu_iteration E llm_processor input h yaw in
  result o = inr MenuContinue
  /\ actions (issued o) =
       [offboard_set_velocity_ned (velocity_ned_yaw 0.0 0.0 0.0 0.0);
        offboard_start]
  /\ last (issued o) (print EmptyString) = print "[x] Error".
Proof.
  intros Hacc Hchoice Hfails. cbv zeta.
  unfold menu_iteration. rewrite Hchoice.
  cbn [String.eqb Ascii.eqb Bool.eqb].
  destruct llm_processor; cbn [first_listen_fails] in Hfails.
  - destruct Hfails as (reply & rest & ->).
    unfold enhanced_voice_control. cbn [while_true]. unfold enhanced_iteration.
    run_accepting Hacc. auto.
  - destruct Hfails as (rest & ->).
    unfold voice_control_basic. cbn [while_true]. unfold basic_iteration.
    run_accepting Hacc. auto.
Qed.

Lemma menu_catches_listen_failure_witness :
  let input := {| choice := "7"; manual_lines := [];
                  enhanced_inputs :=
                    [(NoAudio WaitTimeoutError, LlmResponse None)];
                  basic_inputs := [] |} in
  result (menu_iteration (runtime willing) true input [] 0) = inr MenuContinue.
Proof.
  intros input.
  refine (proj1 (@menu_catches_listen_failure (runtime willing) true input
                   WaitTimeoutError [] 0 _ _ _)).
  - intros history call. reflexivity.
  - reflexivity.
  - exists (LlmResponse None), []. reflexivity.
Defined.
